(** * AI Navigator Scrapers: the operator dashboard and the ingestion pipeline

    Part I embeds [frontend/src/App.js]: the React component's state, its
    asynchronous handlers (as finite programs over HTTP requests, state
    updates, alerts and timers), the rendered view with the ways a render
    can throw, and the event loop that runs the handlers and renders the
    component after each of them.

    Part II models the ingestion pipeline behind the HTTP API (normalizer,
    coordinator, job registry).  Its code is not part of the sources; the
    definitions there follow the design document and say so. *)

From Stdlib Require Import ZArith NArith QArith String Ascii List Bool Lia.
From stdpp Require Import base option gmap strings pretty list fin_maps.

Set Warnings "-register-all".
Open Scope string_scope.
Open Scope list_scope.

(** ** JavaScript values *)

(** The values the component holds and the JSON payloads it receives.
    Numbers are the integers the dashboard deals in (counts and limits),
    which a JS number holds exactly and prints in plain decimal, and [NaN],
    which [parseInt] yields on a non-numeric input.  [JUndefined] is what
    reading an absent property gives.  [JObj] keeps the properties of an
    object, not the order in which they were added. *)
Inductive JVal : Type :=
| JUndefined
| JNull
| JBool (b : bool)
| JNum (n : Z)
| JNaN
| JStr (s : string)
| JArr (items : list JVal)
| JObj (fields : gmap string JVal).

(** ToBoolean. *)
Definition truthy (v : JVal) : bool :=
  match v with
  | JUndefined | JNull | JNaN => false
  | JBool b => b
  | JNum n => negb (n =? 0)%Z
  | JStr s => negb (String.eqb s "")
  | JArr _ | JObj _ => true
  end.

(** [a || b] returns one of its operands. *)
Definition js_or (a b : JVal) : JVal := if truthy a then a else b.

Definition nullish (v : JVal) : bool :=
  match v with
  | JUndefined | JNull => true
  | _ => false
  end.

(** ToPrimitive, which a template literal, a comparison with [>] and
    [new Date(value)] apply to their operand, finds no primitive for an
    object that has a [toString] property of its own (a payload holds no
    function to call in its place), also when the object is an element of
    an array: a TypeError is thrown. *)
Fixpoint no_primitive (v : JVal) : bool :=
  match v with
  | JObj fields =>
      match fields !! "toString" with
      | Some _ => true
      | None => false
      end
  | JArr items => existsb no_primitive items
  | _ => false
  end.

(** What is thrown inside the handlers: the rejection of an axios request
    (network failure or a non-2xx status), the TypeError of a property read
    on [null] or [undefined], or the TypeError of a value that has no
    primitive. *)
Inductive Thrown : Type :=
| AxiosError (message : string)
| TypeError (base : JVal) (key : string)
| NotPrimitive (v : JVal).

(** [v.key] for a [v] that is neither [null] nor [undefined], for the
    property names the dashboard reads (none of them is an array index or a
    prototype method). *)
Definition lookup_prop (v : JVal) (key : string) : JVal :=
  match v with
  | JObj fields => default JUndefined (fields !! key)
  | JArr items =>
      if String.eqb key "length" then JNum (Z.of_nat (length items)) else JUndefined
  | JStr s =>
      if String.eqb key "length" then JNum (Z.of_nat (String.length s)) else JUndefined
  | _ => JUndefined
  end.

(** [v.key]: throws on [null] and [undefined]. *)
Definition member (v : JVal) (key : string) : Thrown + JVal :=
  if nullish v then inl (TypeError v key) else inr (lookup_prop v key).

(** [v?.key]. *)
Definition opt_member (v : JVal) (key : string) : JVal :=
  if nullish v then JUndefined else lookup_prop v key.

(** [v[0]]. *)
Definition element0 (v : JVal) : Thrown + JVal :=
  match v with
  | JUndefined | JNull => inl (TypeError v "0")
  | JArr items => inr (default JUndefined (items !! 0%nat))
  | JStr (String c _) => inr (JStr (String c EmptyString))
  | JObj fields => inr (default JUndefined (fields !! "0"))
  | _ => inr JUndefined
  end.

(** [`${v}`] inside a template literal. *)
Definition interpolate (v : JVal) : Thrown + JVal :=
  if no_primitive v then inl (NotPrimitive v) else inr v.

(** ** Component state *)

(** The ten [useState] cells of [App].  [scrapingResults] is a JS object
    used as a map from spider name to the payload fetched for it; the map
    keeps what is stored under each key, not the order in which the keys
    were added (the order in which the results tab lists its sections). *)
Record AppState : Type := mkAppState {
  spiders : JVal;
  pipelineStatus : JVal;
  serviceStatus : JVal;
  scrapingResults : gmap string JVal;
  logs : JVal;
  missingTaxonomy : JVal;
  loading : bool;
  selectedSpider : JVal;
  maxItems : JVal;
  activeTab : string
}.

Definition initial_state : AppState := {|
  spiders := JArr [];
  pipelineStatus := JObj ∅;
  serviceStatus := JObj ∅;
  scrapingResults := ∅;
  logs := JArr [];
  missingTaxonomy := JArr [];
  loading := false;
  selectedSpider := JStr "";
  maxItems := JNum 50;
  activeTab := "dashboard"
|}.

Definition setSpiders (v : JVal) (st : AppState) : AppState :=
  mkAppState v (pipelineStatus st) (serviceStatus st) (scrapingResults st) (logs st)
    (missingTaxonomy st) (loading st) (selectedSpider st) (maxItems st) (activeTab st).
Definition setPipelineStatus (v : JVal) (st : AppState) : AppState :=
  mkAppState (spiders st) v (serviceStatus st) (scrapingResults st) (logs st)
    (missingTaxonomy st) (loading st) (selectedSpider st) (maxItems st) (activeTab st).
Definition setServiceStatus (v : JVal) (st : AppState) : AppState :=
  mkAppState (spiders st) (pipelineStatus st) v (scrapingResults st) (logs st)
    (missingTaxonomy st) (loading st) (selectedSpider st) (maxItems st) (activeTab st).
(** [setScrapingResults] is only ever called with an updater function. *)
Definition setScrapingResults (f : gmap string JVal -> gmap string JVal)
    (st : AppState) : AppState :=
  mkAppState (spiders st) (pipelineStatus st) (serviceStatus st) (f (scrapingResults st))
    (logs st) (missingTaxonomy st) (loading st) (selectedSpider st) (maxItems st)
    (activeTab st).
Definition setLogs (v : JVal) (st : AppState) : AppState :=
  mkAppState (spiders st) (pipelineStatus st) (serviceStatus st) (scrapingResults st) v
    (missingTaxonomy st) (loading st) (selectedSpider st) (maxItems st) (activeTab st).
Definition setMissingTaxonomy (v : JVal) (st : AppState) : AppState :=
  mkAppState (spiders st) (pipelineStatus st) (serviceStatus st) (scrapingResults st)
    (logs st) v (loading st) (selectedSpider st) (maxItems st) (activeTab st).
Definition setLoading (b : bool) (st : AppState) : AppState :=
  mkAppState (spiders st) (pipelineStatus st) (serviceStatus st) (scrapingResults st)
    (logs st) (missingTaxonomy st) b (selectedSpider st) (maxItems st) (activeTab st).
Definition setSelectedSpider (v : JVal) (st : AppState) : AppState :=
  mkAppState (spiders st) (pipelineStatus st) (serviceStatus st) (scrapingResults st)
    (logs st) (missingTaxonomy st) (loading st) v (maxItems st) (activeTab st).
Definition setMaxItems (v : JVal) (st : AppState) : AppState :=
  mkAppState (spiders st) (pipelineStatus st) (serviceStatus st) (scrapingResults st)
    (logs st) (missingTaxonomy st) (loading st) (selectedSpider st) v (activeTab st).
Definition setActiveTab (tab : string) (st : AppState) : AppState :=
  mkAppState (spiders st) (pipelineStatus st) (serviceStatus st) (scrapingResults st)
    (logs st) (missingTaxonomy st) (loading st) (selectedSpider st) (maxItems st) tab.

(** ** Handler programs *)

Inductive Request : Type :=
| GET (url : string)
| POST (url : string) (body : JVal).

(** How an awaited axios call settles: it resolves with [response.data], or
    rejects with an error carrying a message. *)
Inductive Response : Type :=
| Resolved (data : JVal)
| Rejected (message : string).

(** The parts of a template literal passed to [alert]. *)
Inductive Piece : Type :=
| Lit (s : string)
| Hole (v : JVal)
| ErrorMessage (e : Thrown).

(** An asynchronous handler, as the tree of what it does.  [Await] suspends
    the function until the request settles; [Call] is the call of another
    async function whose promise is not awaited. *)
Inductive Prog : Type :=
| Done
| SetState (f : AppState -> AppState) (k : Prog)
| AlertBox (msg : list Piece) (k : Prog)
| ConsoleError (label : string) (e : Thrown) (k : Prog)
| Await (r : Request) (k : Response -> Prog)
| Call (p : Prog) (k : Prog)
| SetInterval (callback : Prog) (ms : N) (k : nat -> Prog)
| ClearInterval (id : nat) (k : Prog)
| ReturnCleanup (cleanup : Prog).

(** One statement of a [try] block: run [k] on the value, or the handler on
    what was thrown. *)
Definition attempt {A : Type} (r : Thrown + A) (handler : Thrown -> Prog)
    (k : A -> Prog) : Prog :=
  match r with
  | inl e => handler e
  | inr a => k a
  end.

Section App.

(** [process.env.REACT_APP_BACKEND_URL], when set. *)
Variable REACT_APP_BACKEND_URL : option string.

(** [x > 0] for an operand that is not a number, boolean, [null] or
    [undefined]: ECMAScript first coerces it (ToPrimitive, ToNumber).  The
    coercion of strings and objects is left to the engine. *)
Variable coerced_gt_zero : JVal -> bool.

Definition API_BASE_URL : string :=
  match REACT_APP_BACKEND_URL with
  | Some url => if String.eqb url "" then "http://localhost:8001" else url
  | None => "http://localhost:8001"
  end.

Definition gt_zero (v : JVal) : bool :=
  match v with
  | JNum n => (0 <? n)%Z
  | JBool b => b
  | JUndefined | JNull | JNaN => false
  | _ => coerced_gt_zero v
  end.

(** [v > 0]: the comparison throws when [v] has no primitive. *)
Definition greater_than_zero (v : JVal) : Thrown + bool :=
  if no_primitive v then inl (NotPrimitive v) else inr (gt_zero v).

(** Each fetch is an awaited GET followed by the rest of its [try] block,
    named [..._settled] here: what the function does once the request has
    settled. *)
Definition fetchSpiders_settled (response : Response) : Prog :=
  let caught e := ConsoleError "Failed to fetch spiders:" e Done in
  match response with
  | Rejected message => caught (AxiosError message)
  | Resolved data =>
      attempt (member data "spiders") caught (fun sp =>
      SetState (setSpiders sp) (
      attempt (member sp "length") caught (fun len =>
      attempt (greater_than_zero len) caught (fun some =>
      if some then
        attempt (element0 sp) caught (fun s0 =>
        SetState (setSelectedSpider s0) Done)
      else Done))))
  end.

Definition fetchSpiders : Prog :=
  Await (GET (API_BASE_URL +:+ "/api/spiders")) fetchSpiders_settled.

Definition fetchPipelineStatus_settled (response : Response) : Prog :=
  match response with
  | Rejected message =>
      ConsoleError "Failed to fetch pipeline status:" (AxiosError message) Done
  | Resolved data => SetState (setPipelineStatus data) Done
  end.

Definition fetchPipelineStatus : Prog :=
  Await (GET (API_BASE_URL +:+ "/api/status")) fetchPipelineStatus_settled.

Definition fetchServiceStatus_settled (response : Response) : Prog :=
  match response with
  | Rejected message =>
      ConsoleError "Failed to fetch service status:" (AxiosError message) Done
  | Resolved data => SetState (setServiceStatus data) Done
  end.

Definition fetchServiceStatus : Prog :=
  Await (GET (API_BASE_URL +:+ "/api/test-services")) fetchServiceStatus_settled.

Definition fetchLogs_settled (response : Response) : Prog :=
  let caught e := ConsoleError "Failed to fetch logs:" e Done in
  match response with
  | Rejected message => caught (AxiosError message)
  | Resolved data =>
      attempt (member data "logs") caught (fun v => SetState (setLogs v) Done)
  end.

Definition fetchLogs : Prog :=
  Await (GET (API_BASE_URL +:+ "/api/logs?lines=100")) fetchLogs_settled.

Definition fetchMissingTaxonomy_settled (response : Response) : Prog :=
  let caught e := ConsoleError "Failed to fetch missing taxonomy:" e Done in
  match response with
  | Rejected message => caught (AxiosError message)
  | Resolved data =>
      attempt (member data "missing_items") caught (fun v =>
      SetState (setMissingTaxonomy v) Done)
  end.

Definition fetchMissingTaxonomy : Prog :=
  Await (GET (API_BASE_URL +:+ "/api/missing-taxonomy")) fetchMissingTaxonomy_settled.

(** [spiderName] is the property key and URL segment the argument coerces
    to.  The setter is given an updater, so the spread copies the results
    stored at the time the update is applied. *)
Definition fetchScrapingResults_settled (spiderName : string) (response : Response) : Prog :=
  match response with
  | Rejected message =>
      ConsoleError "Failed to fetch scraping results:" (AxiosError message) Done
  | Resolved data =>
      SetState (setScrapingResults (fun prev => <[spiderName := data]> prev)) Done
  end.

Definition fetchScrapingResults (spiderName : string) : Prog :=
  Await (GET (API_BASE_URL +:+ "/api/scraping-results/" +:+ spiderName))
        (fetchScrapingResults_settled spiderName).

(** The body sent with the job submission. *)
Definition start_body (spider_name max_items : JVal) : JVal :=
  JObj (<["spider_name" := spider_name]> (<["max_items" := max_items]> ∅)).

(** The rest of [startScrapingJob] after the awaited POST settles; the
    [finally] block ends every path. *)
Definition startScrapingJob_settled (response : Response) : Prog :=
  let finally := SetState (setLoading false) Done in
  let caught e :=
    AlertBox [Lit "Error starting scraping job: "; ErrorMessage e] finally in
  match response with
  | Rejected message => caught (AxiosError message)
  | Resolved data =>
      attempt (member data "success") caught (fun success =>
      if truthy success then
        attempt (member data "job_id") caught (fun job_id =>
        attempt (interpolate job_id) caught (fun shown =>
        AlertBox [Lit "Scraping job started: "; Hole shown] (
        Call fetchPipelineStatus finally)))
      else
        attempt (member data "message") caught (fun message =>
        attempt (interpolate message) caught (fun shown =>
        AlertBox [Lit "Failed to start scraping: "; Hole shown] finally)))
  end.

(** The handler reads [selectedSpider] and [maxItems] from the render it
    was created in. *)
Definition startScrapingJob (selectedSpider maxItems : JVal) : Prog :=
  if negb (truthy selectedSpider) then
    AlertBox [Lit "Please select a spider"] Done
  else
    SetState (setLoading true) (
    Await (POST (API_BASE_URL +:+ "/api/start-scraping")
                (start_body selectedSpider maxItems))
          startScrapingJob_settled).

(** The interval callback and the mount effect ([useEffect] with no
    dependencies). *)
Definition poll : Prog := Call fetchPipelineStatus Done.

Definition mount_effect : Prog :=
  Call fetchSpiders (
  Call fetchPipelineStatus (
  Call fetchServiceStatus (
  SetInterval poll 3000 (fun interval =>
  ReturnCleanup (ClearInterval interval Done))))).

(** ** The event loop *)

(** What the outside world can observe of a run. *)
Inductive Event : Type :=
| Requested (ticket : nat) (r : Request)
| Alerted (msg : list Piece)
| Logged (label : string) (e : Thrown).

(** A request in flight and the suspended function waiting for it. *)
Record InFlight : Type := mkInFlight {
  ticket : nat;
  request : Request;
  resume : Response -> Prog
}.

Record Timer : Type := mkTimer {
  timer_id : nat;
  period : N;
  due : N;
  callback : Prog
}.

(** The page: the component (its state, whether it is still mounted, the
    cleanup its effect returned), the browser's timers and clock (in ms),
    the requests in flight, and the trace of observable events with the time
    each happened. *)
Record World : Type := mkWorld {
  ui : AppState;
  mounted : bool;
  cleanup : option Prog;
  clock : N;
  timers : list Timer;
  next_timer : nat;
  pending : list InFlight;
  next_ticket : nat;
  trace : list (N * Event)
}.

Definition with_state (f : AppState -> AppState) (w : World) : World :=
  mkWorld (f (ui w)) (mounted w) (cleanup w) (clock w) (timers w) (next_timer w)
    (pending w) (next_ticket w) (trace w).
Definition with_timers (f : list Timer -> list Timer) (w : World) : World :=
  mkWorld (ui w) (mounted w) (cleanup w) (clock w) (f (timers w)) (next_timer w)
    (pending w) (next_ticket w) (trace w).
Definition emit (e : Event) (w : World) : World :=
  mkWorld (ui w) (mounted w) (cleanup w) (clock w) (timers w) (next_timer w)
    (pending w) (next_ticket w) (trace w ++ [(clock w, e)]).

(** Sending a request: it gets a ticket, and the caller is parked. *)
Definition send (r : Request) (k : Response -> Prog) (w : World) : World :=
  mkWorld (ui w) (mounted w) (cleanup w) (clock w) (timers w) (next_timer w)
    (pending w ++ [mkInFlight (next_ticket w) r k]) (S (next_ticket w))
    (trace w ++ [(clock w, Requested (next_ticket w) r)]).

Definition add_timer (cb : Prog) (ms : N) (w : World) : World :=
  mkWorld (ui w) (mounted w) (cleanup w) (clock w)
    (timers w ++ [mkTimer (next_timer w) ms (clock w + ms) cb]) (S (next_timer w))
    (pending w) (next_ticket w) (trace w).

Definition keep_cleanup (c : Prog) (w : World) : World :=
  mkWorld (ui w) (mounted w) (Some c) (clock w) (timers w) (next_timer w)
    (pending w) (next_ticket w) (trace w).

(** Runs a program up to the point where it suspends or ends.  A state
    setter called after the component was unmounted does nothing. *)
Fixpoint exec (p : Prog) (w : World) : World :=
  match p with
  | Done => w
  | SetState f k => exec k (if mounted w then with_state f w else w)
  | AlertBox msg k => exec k (emit (Alerted msg) w)
  | ConsoleError label e k => exec k (emit (Logged label e) w)
  | Await r k => send r k w
  | Call p' k => exec k (exec p' w)
  | SetInterval cb ms k => exec (k (next_timer w)) (add_timer cb ms w)
  | ClearInterval id k =>
      exec k (with_timers (filter (fun t => timer_id t ≠ id)) w)
  | ReturnCleanup c => keep_cleanup c w
  end.

(** *** Timers *)

Definition registered (id : nat) (w : World) : bool :=
  existsb (fun t => Nat.eqb (timer_id t) id) (timers w).

Definition reschedule (id : nat) (w : World) : World :=
  with_timers (map (fun t =>
    if Nat.eqb (timer_id t) id
    then mkTimer (timer_id t) (period t) (due t + period t) (callback t)
    else t)) w.

(** Runs the callbacks of the timers in [ts] that are due now and still
    registered, each rescheduled one period later. *)
Fixpoint fire (ts : list Timer) (w : World) : World :=
  match ts with
  | [] => w
  | t :: rest =>
      fire rest
        (if (due t =? clock w)%N && registered (timer_id t) w
         then exec (callback t) (reschedule (timer_id t) w)
         else w)
  end.

Definition advance_clock (w : World) : World :=
  mkWorld (ui w) (mounted w) (cleanup w) (clock w + 1) (timers w) (next_timer w)
    (pending w) (next_ticket w) (trace w).

(** One millisecond passes. *)
Definition tick (w : World) : World :=
  let w' := advance_clock w in fire (timers w') w'.

(** *** Network *)

Fixpoint take_pending (id : nat) (l : list InFlight) : option (InFlight * list InFlight) :=
  match l with
  | [] => None
  | p :: rest =>
      if Nat.eqb (ticket p) id then Some (p, rest)
      else match take_pending id rest with
           | Some (q, rest') => Some (q, p :: rest')
           | None => None
           end
  end.

Definition with_pending (l : list InFlight) (w : World) : World :=
  mkWorld (ui w) (mounted w) (cleanup w) (clock w) (timers w) (next_timer w)
    l (next_ticket w) (trace w).

(** The request with ticket [id] settles and the function waiting for it
    goes on. *)
Definition respond (id : nat) (r : Response) (w : World) : World :=
  match take_pending id (pending w) with
  | Some (p, rest) => exec (resume p r) (with_pending rest w)
  | None => w
  end.

(** *** Views *)

(** Rendered output: elements with their props, literal text, and [{expr}]
    children (React prints numbers and strings and skips booleans, [null]
    and [undefined]). *)
Inductive VNode : Type :=
| Elem (tag : string) (props : list (string * JVal)) (children : list VNode)
| Text (s : string)
| Expr (v : JVal).

(** [{cond && (<node/>)}]. *)
Definition when_truthy (cond : JVal) (node : VNode) : VNode :=
  if truthy cond then node else Expr cond.

(** The "Running" badge of the header. *)
Definition running_badge : VNode :=
  Elem "div"
    [("className", JStr "flex items-center space-x-2 bg-green-100 px-3 py-2 rounded-lg")]
    [Elem "div" [("className", JStr "w-2 h-2 bg-green-500 rounded-full animate-pulse")] [];
     Elem "span" [("className", JStr "text-green-800 text-sm font-medium")]
       [Text "Running"]].

Definition running_indicator (status : JVal) : Thrown + VNode :=
  match member status "is_running" with
  | inl e => inl e
  | inr is_running => inr (when_truthy is_running running_badge)
  end.

(** [{pipelineStatus.stats?.field || 0}], with [pipelineStatus] known not to
    be [null] or [undefined]. *)
Definition counter (status : JVal) (field : string) : JVal :=
  js_or (opt_member (lookup_prop status "stats") field) (JNum 0).

Definition counter_cell (colour : string) (value : JVal) (caption : string) : VNode :=
  Elem "div" [("className", JStr "text-center")]
    [Elem "div" [("className", JStr ("text-2xl font-bold " +:+ colour))] [Expr value];
     Elem "div" [("className", JStr "text-sm text-gray-600")] [Text caption]].

(** The "Current Job Status" card of the dashboard tab. *)
Definition job_card (processed successful failed skipped : JVal) : VNode :=
  Elem "div" [("className", JStr "bg-white p-6 rounded-lg shadow-md")]
    [Elem "h3" [("className", JStr "text-lg font-semibold mb-4")]
       [Text "Current Job Status"];
     Elem "div" [("className", JStr "grid grid-cols-2 md:grid-cols-4 gap-4")]
       [counter_cell "text-blue-600" processed "Processed";
        counter_cell "text-green-600" successful "Successful";
        counter_cell "text-red-600" failed "Failed";
        counter_cell "text-yellow-600" skipped "Skipped"]].

Definition current_job_status (status : JVal) : Thrown + VNode :=
  match member status "current_job" with
  | inl e => inl e
  | inr current_job =>
      inr (when_truthy current_job
        (job_card (counter status "total_processed")
                  (counter status "successful_submissions")
                  (counter status "failed_submissions")
                  (counter status "duplicates_skipped")))
  end.




(** The [disabled] prop of the submit button. *)
Definition start_disabled (st : AppState) : Thrown + JVal :=
  match member (pipelineStatus st) "is_running" with
  | inl e => inl e
  | inr is_running => inr (js_or (JBool (loading st)) is_running)
  end.

(** The "Start Scraping" button of the scraping tab. *)
Definition start_button (st : AppState) : Thrown + VNode :=
  match start_disabled st with
  | inl e => inl e
  | inr disabled =>
      inr (Elem "button"
        [("disabled", disabled);
         ("className", JStr ("w-full px-4 py-2 rounded-md font-medium " +:+
            (if truthy disabled then "bg-gray-400 cursor-not-allowed"
             else "bg-blue-600 hover:bg-blue-700") +:+ " text-white"))]
        [Text (if loading st then "Starting..." else "Start Scraping")])
  end.

(** Whether a click on the submit button reaches [startScrapingJob]: the
    scraping tab is the one shown, the render did not throw, and the button
    is not disabled. *)
Definition start_clickable (st : AppState) : bool :=
  String.eqb (activeTab st) "scraping" &&
  match start_disabled st with
  | inr disabled => negb (truthy disabled)
  | inl _ => false
  end.

(** *** More of the rendered page *)

(** What a render can throw: the TypeError of a property read on [null] or
    [undefined], the one of calling something that is not a function, or
    the one of comparing a value that has no primitive. *)
Inductive RenderError : Type :=
| PropertyRead (e : Thrown)
| NotAFunction (base : JVal) (key : string)
| Comparison (e : Thrown).

(** The results of the calls of a callback, up to the first that throws. *)
Fixpoint collect {E A : Type} (l : list (E + A)) : E + list A :=
  match l with
  | [] => inr []
  | inl e :: _ => inl e
  | inr a :: rest =>
      match collect rest with
      | inl e => inl e
      | inr done => inr (a :: done)
      end
  end.

(** [v.map((item, index) => f index item)] for a value that came out of
    JSON: only an array has a [map] to call. *)
Definition js_map {A : Type} (f : nat -> JVal -> RenderError + A) (v : JVal)
    : RenderError + list A :=
  match v with
  | JUndefined | JNull => inl (PropertyRead (TypeError v "map"))
  | JArr items => collect (imap f items)
  | _ => inl (NotAFunction v "map")
  end.

(** [v === 'literal']. *)
Definition is_string (v : JVal) (literal : string) : bool :=
  match v with
  | JStr s => String.eqb s literal
  | _ => false
  end.

(** **** Service cards *)

Definition getStatusColor (status : JVal) : string :=
  if is_string status "success" then "bg-green-500"
  else if is_string status "error" then "bg-red-500"
  else "bg-yellow-500".

Definition StatusIndicator (status label : JVal) : VNode :=
  Elem "div" [("className", JStr "flex items-center space-x-2")]
    [Elem "div"
       [("className", JStr ("w-3 h-3 rounded-full " +:+ getStatusColor status))] [];
     Elem "span" [("className", JStr "text-sm font-medium")] [Expr label]].

Definition categories_line (count : JVal) : VNode :=
  Elem "p" [("className", JStr "text-gray-600 text-sm mt-1")]
    [Text "Categories: "; Expr count].

(** The children of the card, in order: title, indicator, and the four
    guarded lines. *)
Definition card_children (title : string) (status : JVal) : list VNode :=
  [Elem "h3" [("className", JStr "font-semibold text-gray-800 mb-2")] [Expr (JStr title)];
   StatusIndicator (lookup_prop status "status") (lookup_prop status "status");
   when_truthy (lookup_prop status "error")
     (Elem "p" [("className", JStr "text-red-600 text-sm mt-2")]
        [Expr (lookup_prop status "error")]);
   when_truthy (lookup_prop status "categories_count")
     (categories_line (lookup_prop status "categories_count"));
   when_truthy (lookup_prop status "tags_loaded")
     (Elem "p" [("className", JStr "text-gray-600 text-sm")]
        [Text "Tags: "; Expr (lookup_prop status "tags_loaded")]);
   when_truthy (lookup_prop status "features_loaded")
     (Elem "p" [("className", JStr "text-gray-600 text-sm")]
        [Text "Features: "; Expr (lookup_prop status "features_loaded")])].

Definition ServiceStatusCard (title : string) (status : JVal) : Thrown + VNode :=
  match member status "status" with
  | inl e => inl e
  | inr _ =>
      inr (Elem "div"
             [("className", JStr "bg-white p-4 rounded-lg shadow-md border-l-4 border-blue-500")]
             (card_children title status))
  end.

(** [\w] of a regular expression without the [u] flag. *)
Definition is_word_char (c : ascii) : bool :=
  let n := nat_of_ascii c in
  ((48 <=? n) && (n <=? 57) || (65 <=? n) && (n <=? 90) ||
   (97 <=? n) && (n <=? 122) || (n =? 95))%nat.

(** [toUpperCase] of one ASCII character. *)
Definition upper_char (c : ascii) : ascii :=
  let n := nat_of_ascii c in
  if ((97 <=? n) && (n <=? 122))%nat then ascii_of_nat (n - 32) else c.

(** [s.replace(/_/g, ' ')]. *)
Fixpoint underscores_to_spaces (s : string) : string :=
  match s with
  | EmptyString => EmptyString
  | String c rest =>
      String (if Ascii.eqb c "_" then " "%char else c) (underscores_to_spaces rest)
  end.

(** [s.replace(/\b\w/g, l => l.toUpperCase())]: a word character is
    replaced when the one before it, if any, is not a word character. *)
Fixpoint capitalize_words (after_word : bool) (s : string) : string :=
  match s with
  | EmptyString => EmptyString
  | String c rest =>
      String (if is_word_char c && negb after_word then upper_char c else c)
             (capitalize_words (is_word_char c) rest)
  end.

(** The title of a service card, from the key of the service. *)
Definition service_title (service : string) : string :=
  capitalize_words false (underscores_to_spaces service).

(** **** Navigation *)

Definition tabs : list string := ["dashboard"; "scraping"; "results"; "logs"; "taxonomy"].

(** [tab.charAt(0).toUpperCase() + tab.slice(1)], for the ASCII names of
    the tabs. *)
Definition tab_label (tab : string) : string :=
  match tab with
  | EmptyString => EmptyString
  | String c rest => String (upper_char c) rest
  end.

Definition tab_button (active : bool) (tab : string) : VNode :=
  Elem "button"
    [("key", JStr tab);
     ("className", JStr ("py-4 px-1 border-b-2 font-medium text-sm " +:+
        (if active then "border-blue-500 text-blue-600"
         else "border-transparent text-gray-500 hover:text-gray-700 hover:border-gray-300")))]
    [Expr (JStr (tab_label tab))].

Definition nav (st : AppState) : list VNode :=
  map (fun tab => tab_button (String.eqb (activeTab st) tab) tab) tabs.

(** **** Scraping tab *)

Definition spider_option (spider : JVal) : VNode :=
  Elem "option" [("key", spider); ("value", spider)] [Expr spider].

(** The options of the spider select. *)
Definition spider_options (spiders : JVal) : RenderError + list VNode :=
  js_map (fun _ spider => inr (spider_option spider)) spiders.

(** The "Job is currently running" notice under the form. *)
Definition notice_box (current_job : JVal) : VNode :=
  Elem "div" [("className", JStr "bg-blue-50 p-4 rounded-md")]
    [Elem "p" [("className", JStr "text-blue-800")]
       [Text "Job is currently running: "; Expr current_job]].

Definition running_notice (status : JVal) : Thrown + VNode :=
  match member status "is_running" with
  | inl e => inl e
  | inr is_running =>
      inr (when_truthy is_running (notice_box (lookup_prop status "current_job")))
  end.

(** **** Logs tab *)

Definition log_row (index : nat) (log : JVal) : VNode :=
  Elem "div" [("key", JNum (Z.of_nat index)); ("className", JStr "mb-1")] [Expr log].

Definition logs_view (logs : JVal) : RenderError + list VNode :=
  js_map (fun index log => inr (log_row index log)) logs.

(** **** Taxonomy tab *)

Definition taxonomy_row (index : nat) (item : JVal) : RenderError + VNode :=
  match member item "type" with
  | inl e => inl (PropertyRead e)
  | inr type =>
      inr (Elem "div"
             [("key", JNum (Z.of_nat index));
              ("className", JStr "mb-2 p-3 bg-yellow-50 border border-yellow-200 rounded-md")]
             [Elem "div" [("className", JStr "flex justify-between items-center")]
                [Elem "div" []
                   [Elem "span" [("className", JStr "font-medium text-yellow-800")]
                      [Expr type];
                    Elem "span" [("className", JStr "ml-2 text-gray-700")]
                      [Expr (lookup_prop item "name")]];
                 Elem "span" [("className", JStr "text-sm text-gray-500")]
                   [Expr (lookup_prop item "timestamp")]]])
  end.

Definition no_missing_items : VNode :=
  Elem "p" [("className", JStr "text-gray-600")] [Text "No missing taxonomy items found."].

Definition taxonomy_view (missingTaxonomy : JVal) : RenderError + VNode :=
  match member missingTaxonomy "length" with
  | inl e => inl (PropertyRead e)
  | inr len =>
      match greater_than_zero len with
      | inl e => inl (Comparison e)
      | inr true =>
          match js_map taxonomy_row missingTaxonomy with
          | inl e => inl e
          | inr rows =>
              inr (Elem "div" [("className", JStr "max-h-64 overflow-y-auto")] rows)
          end
      | inr false => inr no_missing_items
      end
  end.

(** **** Children *)

(** React refuses a plain object as a child ("Objects are not valid as a
    React child"), also inside an array of children; every other value is
    printed or skipped. *)
Fixpoint has_object (v : JVal) : bool :=
  match v with
  | JObj _ => true
  | JArr items => existsb has_object items
  | _ => false
  end.

Fixpoint renderable (node : VNode) : bool :=
  match node with
  | Elem _ _ children => forallb renderable children
  | Text _ => true
  | Expr v => negb (has_object v)
  end.

(** **** Results tab *)

(** ToString, as the template literal of the request URL and the computed
    property key apply it to the spider a "Load" button was rendered for.
    An array joins its elements with commas, [null] and [undefined] among
    them as the empty string; an object without a [toString] of its own
    prints as [[object Object]]. *)
Fixpoint to_string (v : JVal) : string :=
  match v with
  | JUndefined => "undefined"
  | JNull => "null"
  | JBool b => if b then "true" else "false"
  | JNum n => pretty n
  | JNaN => "NaN"
  | JStr s => s
  | JArr items =>
      String.concat "," (map (fun item => if nullish item then "" else to_string item) items)
  | JObj _ => "[object Object]"
  end.

Definition load_button (spider : JVal) : VNode :=
  Elem "button"
    [("key", spider);
     ("className", JStr "px-3 py-1 bg-blue-100 text-blue-700 rounded-md hover:bg-blue-200")]
    [Text "Load "; Expr spider].

(** The "Load" buttons, one per entry of [spiders]. *)
Definition load_buttons (spiders : JVal) : RenderError + list VNode :=
  js_map (fun _ spider => inr (load_button spider)) spiders.

(** The spider of the [index]-th "Load" button, when the results tab is the
    one shown and has such a button: React puts no button on the page for a
    spider it refuses as a child. *)
Definition load_target (index : nat) (st : AppState) : option JVal :=
  if String.eqb (activeTab st) "results" then
    match spiders st with
    | JArr items =>
        match items !! index with
        | Some spider => if has_object spider then None else Some spider
        | None => None
        end
    | _ => None
    end
  else None.

(** *** Renders that throw *)

(** A part of the page breaks the render when its expression throws or when
    React refuses one of its children. *)
Definition part_crashes {E : Type} (part : E + VNode) : bool :=
  match part with
  | inl _ => true
  | inr node => negb (renderable node)
  end.

Definition list_crashes {E : Type} (part : E + list VNode) : bool :=
  match part with
  | inl _ => true
  | inr nodes => negb (forallb renderable nodes)
  end.

(** The service cards of [Object.entries(serviceStatus).map(...)].
    [Object.entries] throws on [null] and [undefined]; an object gives one
    card per property and an array one per element, under its index; the
    entries of a string are its characters, whose cards show nothing, and a
    number or boolean has none.  Whether a card throws does not depend on
    where it stands among the others. *)
Definition cards_crash (serviceStatus : JVal) : bool :=
  match serviceStatus with
  | JUndefined | JNull => true
  | JObj fields =>
      existsb (fun entry =>
                 part_crashes (ServiceStatusCard (service_title (fst entry)) (snd entry)))
        (map_to_list fields)
  | JArr items =>
      existsb part_crashes
        (imap (fun index status => ServiceStatusCard (service_title (pretty index)) status)
           items)
  | _ => false
  end.

(** One row of a results section: [result.tool_name_on_directory] throws on
    [null] and [undefined], the name and the URL are children, and
    [new Date(result.scraped_date)] needs a primitive (the date cell then
    shows the string [toLocaleString] returns). *)
Definition result_row_crashes (result : JVal) : bool :=
  nullish result ||
  has_object (lookup_prop result "tool_name_on_directory") ||
  has_object (lookup_prop result "external_website_url") ||
  no_primitive (lookup_prop result "scraped_date").

(** One section of [Object.entries(scrapingResults).map(...)]: the heading
    reads [results.results_count], then [results.results.map] builds the
    rows. *)
Definition results_section_crashes (results : JVal) : bool :=
  nullish results ||
  has_object (lookup_prop results "results_count") ||
  match lookup_prop results "results" with
  | JArr rows => existsb result_row_crashes rows
  | _ => true
  end.

Definition dashboard_crashes (st : AppState) : bool :=
  cards_crash (serviceStatus st) || part_crashes (current_job_status (pipelineStatus st)).

Definition scraping_crashes (st : AppState) : bool :=
  list_crashes (spider_options (spiders st)) ||
  part_crashes (start_button st) ||
  part_crashes (running_notice (pipelineStatus st)).

Definition results_crashes (st : AppState) : bool :=
  list_crashes (load_buttons (spiders st)) ||
  existsb (fun entry => results_section_crashes (snd entry))
    (map_to_list (scrapingResults st)).

(** Whether rendering [App] in state [st] throws: the header reads
    [pipelineStatus.is_running] whatever the tab, the navigation bar reads
    nothing that can be missing, and of the five tab bodies only the active
    one is evaluated. *)
Definition crashes (st : AppState) : bool :=
  part_crashes (running_indicator (pipelineStatus st)) ||
  (if String.eqb (activeTab st) "dashboard" then dashboard_crashes st
   else if String.eqb (activeTab st) "scraping" then scraping_crashes st
   else if String.eqb (activeTab st) "results" then results_crashes st
   else if String.eqb (activeTab st) "logs" then list_crashes (logs_view (logs st))
   else if String.eqb (activeTab st) "taxonomy"
        then part_crashes (taxonomy_view (missingTaxonomy st))
   else false).

(** *** Inputs *)

(** What can happen to the page: a millisecond passes, a request settles,
    the operator uses a control, or the component is taken off the page.
    [ClickLoad index] is a click on the [index]-th "Load" button. *)
Inductive Input : Type :=
| Tick
| Respond (id : nat) (r : Response)
| ClickStart
| ClickLoad (index : nat)
| ClickRefreshLogs
| ClickRefreshTaxonomy
| ClickTab (tab : string)
| ChangeSpider (value : string)
| ChangeMaxItems (parsed : option Z)
| Unmount.

Definition unmount (w : World) : World :=
  let w' := match cleanup w with Some c => exec c w | None => w end in
  mkWorld (ui w') false None (clock w') (timers w') (next_timer w')
    (pending w') (next_ticket w') (trace w').

(** The code an input runs: a timer callback, the rest of a suspended
    function, or the handler of the control that was used.  The controls of
    an unmounted component are gone. *)
Definition handle (w : World) (i : Input) : World :=
  match i with
  | Tick => tick w
  | Respond id r => respond id r w
  | Unmount => if mounted w then unmount w else w
  | _ =>
    if negb (mounted w) then w else
    match i with
    | ClickStart =>
        if start_clickable (ui w)
        then exec (startScrapingJob (selectedSpider (ui w)) (maxItems (ui w))) w
        else w
    | ClickLoad index =>
        match load_target index (ui w) with
        | Some spider => exec (fetchScrapingResults (to_string spider)) w
        | None => w
        end
    | ClickRefreshLogs =>
        if String.eqb (activeTab (ui w)) "logs" then exec fetchLogs w else w
    | ClickRefreshTaxonomy =>
        if String.eqb (activeTab (ui w)) "taxonomy" then exec fetchMissingTaxonomy w
        else w
    | ClickTab tab => with_state (setActiveTab tab) w
    | ChangeSpider value =>
        if String.eqb (activeTab (ui w)) "scraping"
        then with_state (setSelectedSpider (JStr value)) w else w
    | ChangeMaxItems parsed =>
        if String.eqb (activeTab (ui w)) "scraping"
        then with_state (setMaxItems (match parsed with Some n => JNum n | None => JNaN end)) w
        else w
    | _ => w
    end
  end.

(** Once that code has run, React renders the component in its new state.
    [App] has no error boundary around it: a render that throws takes the
    whole tree off the page, so the component is unmounted and the cleanup
    of its effect runs. *)
Definition settle (w : World) : World :=
  if mounted w && crashes (ui w) then unmount w else w.

Definition step (w : World) (i : Input) : World := settle (handle w i).

Definition run (w : World) (inputs : list Input) : World := fold_left step inputs w.

Definition blank : World := {|
  ui := initial_state; mounted := true; cleanup := None; clock := 0;
  timers := []; next_timer := 0; pending := []; next_ticket := 0; trace := []
|}.

(** The page once the component has mounted and its effect has run. *)
Definition boot : World := exec mount_effect blank.

(** *** The six fetch operations, side by side *)

Inductive Fetch : Type :=
| Spiders
| Status
| Services
| Logs
| Taxonomy
| Results (spider : string).

Definition fetch_prog (f : Fetch) : Prog :=
  match f with
  | Spiders => fetchSpiders
  | Status => fetchPipelineStatus
  | Services => fetchServiceStatus
  | Logs => fetchLogs
  | Taxonomy => fetchMissingTaxonomy
  | Results spider => fetchScrapingResults spider
  end.

Definition fetch_request (f : Fetch) : Request :=
  match f with
  | Spiders => GET (API_BASE_URL +:+ "/api/spiders")
  | Status => GET (API_BASE_URL +:+ "/api/status")
  | Services => GET (API_BASE_URL +:+ "/api/test-services")
  | Logs => GET (API_BASE_URL +:+ "/api/logs?lines=100")
  | Taxonomy => GET (API_BASE_URL +:+ "/api/missing-taxonomy")
  | Results spider => GET (API_BASE_URL +:+ "/api/scraping-results/" +:+ spider)
  end.

Definition fetch_settled (f : Fetch) : Response -> Prog :=
  match f with
  | Spiders => fetchSpiders_settled
  | Status => fetchPipelineStatus_settled
  | Services => fetchServiceStatus_settled
  | Logs => fetchLogs_settled
  | Taxonomy => fetchMissingTaxonomy_settled
  | Results spider => fetchScrapingResults_settled spider
  end.

(** The label of the [console.error] in the fetch's [catch] block. *)
Definition fetch_label (f : Fetch) : string :=
  match f with
  | Spiders => "Failed to fetch spiders:"
  | Status => "Failed to fetch pipeline status:"
  | Services => "Failed to fetch service status:"
  | Logs => "Failed to fetch logs:"
  | Taxonomy => "Failed to fetch missing taxonomy:"
  | Results _ => "Failed to fetch scraping results:"
  end.

(** The suspended functions that can be waiting for a request: one of the
    fetches, or the job submission. *)
Inductive waiting : InFlight -> Prop :=
| waiting_fetch (id : nat) (f : Fetch) :
    waiting (mkInFlight id (fetch_request f) (fetch_settled f))
| waiting_start (id : nat) (body : JVal) :
    waiting (mkInFlight id (POST (API_BASE_URL +:+ "/api/start-scraping") body)
               startScrapingJob_settled).

(** The interval registered by the mount effect, next due at [due]. *)
Definition poll_timer (due : N) : Timer := mkTimer 0 3000 due poll.

Definition is_unmount (i : Input) : bool :=
  match i with
  | Unmount => true
  | _ => false
  end.

(** *** What the handlers can do *)

(** A state update that leaves [pipelineStatus] alone. *)
Definition keeps_status (f : AppState -> AppState) : Prop :=
  forall st, pipelineStatus (f st) = pipelineStatus st.

(** The programs built from state updates (those [allowed]), alerts,
    console errors, calls, and the requests of the fetches and of the job
    submission: no timer is touched. *)
Inductive tame (allowed : (AppState -> AppState) -> Prop) : Prog -> Prop :=
| tame_done : tame allowed Done
| tame_set f k : allowed f -> tame allowed k -> tame allowed (SetState f k)
| tame_alert msg k : tame allowed k -> tame allowed (AlertBox msg k)
| tame_log label e k : tame allowed k -> tame allowed (ConsoleError label e k)
| tame_fetch f : tame allowed (Await (fetch_request f) (fetch_settled f))
| tame_start body :
    tame allowed (Await (POST (API_BASE_URL +:+ "/api/start-scraping") body)
                    startScrapingJob_settled)
| tame_call p k : tame allowed p -> tame allowed k -> tame allowed (Call p k).

(** [w'] is [w] after some handler code ran: the component state and the
    trace may differ, requests of the known kinds may have been added. *)
Definition extends (w w' : World) : Prop :=
  mounted w' = mounted w /\ cleanup w' = cleanup w /\ clock w' = clock w /\
  timers w' = timers w /\
  exists extra, pending w' = pending w ++ extra /\ Forall waiting extra.

(** The invariant of a running page: every parked function is a known one;
    while mounted the only timer is the polling interval, due at the next
    multiple of its period, and the cleanup that clears it is kept; after
    unmount no timer is left. *)
Definition world_ok (w : World) : Prop :=
  Forall waiting (pending w) /\
  if mounted w
  then cleanup w = Some (ClearInterval 0 Done) /\
       exists q : N, timers w = [poll_timer (3000 * (q + 1))] /\
                     (3000 * q <= clock w < 3000 * (q + 1))%N
  else cleanup w = None /\ timers w = [].

End App.

(** *** Vocabulary for the properties *)

Definition is_lower_char (c : ascii) : bool :=
  let n := nat_of_ascii c in ((97 <=? n) && (n <=? 122))%nat.

(** Whether a settled submission started a job, as the handler reads the
    response: [success] is truthy and the job id can be written into the
    alert. *)
Definition succeeded (r : Response) : bool :=
  match r with
  | Resolved data =>
      negb (nullish data) && truthy (lookup_prop data "success") &&
      negb (no_primitive (lookup_prop data "job_id"))
  | Rejected _ => false
  end.

(** The job submissions among the requests in flight. *)
Definition is_submission (p : InFlight) : bool :=
  match request p with
  | POST _ _ => true
  | GET _ => false
  end.

Definition count_submissions (l : list InFlight) : nat :=
  length (List.filter is_submission l).

Definition submissions_in_flight (w : World) : nat := count_submissions (pending w).

(** The requests of a trace, in order. *)
Definition requests_of (events : list (N * Event)) : list Request :=
  omap (fun ev => match snd ev with
                  | Requested _ r => Some r
                  | _ => None
                  end) events.

(** A click on one of the five buttons of the navigation bar, or any other
    input. *)
Definition from_the_page (i : Input) : Prop :=
  match i with
  | ClickTab tab => In tab tabs
  | _ => True
  end.

(** Whether a request is a GET of [url]. *)
Definition is_get (url : string) (r : Request) : bool :=
  match r with
  | GET u => String.eqb u url
  | POST _ _ => false
  end.

(** The state updates an input can cause: those of the handlers, and the
    one of the control that was used. *)
Inductive page_update (i : Input) : (AppState -> AppState) -> Prop :=
| update_spiders v : page_update i (setSpiders v)
| update_selected v : page_update i (setSelectedSpider v)
| update_status v : page_update i (setPipelineStatus v)
| update_services v : page_update i (setServiceStatus v)
| update_logs v : page_update i (setLogs v)
| update_taxonomy v : page_update i (setMissingTaxonomy v)
| update_results s data :
    page_update i (setScrapingResults (fun prev => <[s := data]> prev))
| update_loading b : page_update i (setLoading b)
| update_tab tab : i = ClickTab tab -> page_update i (setActiveTab tab)
| update_choice value : i = ChangeSpider value -> page_update i (setSelectedSpider (JStr value))
| update_max parsed :
    i = ChangeMaxItems parsed ->
    page_update i (setMaxItems (match parsed with Some n => JNum n | None => JNaN end)).

(** What a program does before it suspends: state updates among
    [update_ok], alerts, console errors, and requests among [request_ok]. *)
Inductive does (update_ok : (AppState -> AppState) -> Prop) (request_ok : Request -> Prop)
    : Prog -> Prop :=
| does_done : does update_ok request_ok Done
| does_set f k :
    update_ok f -> does update_ok request_ok k -> does update_ok request_ok (SetState f k)
| does_alert msg k : does update_ok request_ok k -> does update_ok request_ok (AlertBox msg k)
| does_log label e k :
    does update_ok request_ok k -> does update_ok request_ok (ConsoleError label e k)
| does_send r k : request_ok r -> does update_ok request_ok (Await r k)
| does_call p k :
    does update_ok request_ok p -> does update_ok request_ok k ->
    does update_ok request_ok (Call p k).

Section Page_requests.
Variable REACT_APP_BACKEND_URL : option string.

(** The requests the page sends once mounted. *)
Inductive later_request : Request -> Prop :=
| later_status : later_request (GET (API_BASE_URL REACT_APP_BACKEND_URL +:+ "/api/status"))
| later_start body :
    later_request (POST (API_BASE_URL REACT_APP_BACKEND_URL +:+ "/api/start-scraping") body)
| later_results spider :
    later_request (GET (API_BASE_URL REACT_APP_BACKEND_URL +:+ "/api/scraping-results/"
                          +:+ spider))
| later_logs :
    later_request (GET (API_BASE_URL REACT_APP_BACKEND_URL +:+ "/api/logs?lines=100"))
| later_taxonomy :
    later_request (GET (API_BASE_URL REACT_APP_BACKEND_URL +:+ "/api/missing-taxonomy")).

End Page_requests.

(** How [w'] differs from [w] after some code ran: the component state went
    through updates among [update_ok], and the trace gained requests among
    [request_ok]. *)
Definition changes (update_ok : (AppState -> AppState) -> Prop)
    (request_ok : Request -> Prop) (w w' : World) : Prop :=
  exists updates sent,
    Forall update_ok updates /\
    ui w' = fold_left (fun st f => f st) updates (ui w) /\
    Forall request_ok sent /\
    requests_of (trace w') = requests_of (trace w) ++ sent.

(** At most one job submission is in flight, and while the component is
    mounted the loading flag tells whether one is. *)
Definition one_submission_at_a_time (w : World) : Prop :=
  (submissions_in_flight w <= 1)%nat /\
  (mounted w = true ->
   submissions_in_flight w = if loading (ui w) then 1%nat else 0%nat).

(** * Part II: the ingestion pipeline *)

(** ** URL canonicalization *)

(** Modelled from the spec: the Record Normalizer's source is missing.  A
    URL in split form: scheme, host, optional port, path, query parameters
    in order, fragment. *)
Record Url : Type := mkUrl {
  scheme : string;
  host : string;
  port : option N;
  path : string;
  query : list (string * string);
  fragment : string
}.

(** Modelled from the spec: the Normalizer's error type is missing; a
    record is rejected for its URL or for another validation failure. *)
Inductive RejectionError : Type :=
| InvalidURL
| InvalidRecord (why : string).

(** Modelled from the spec: the Normalizer's lower-casing is missing; ASCII
    letters [A]-[Z] map to [a]-[z], every other character to itself. *)
Definition lower_char (c : ascii) : ascii :=
  let n := nat_of_ascii c in
  if (65 <=? n)%nat && (n <=? 90)%nat then ascii_of_nat (n + 32) else c.

(** Modelled from the spec: the Normalizer's lower-casing, over a string. *)
Fixpoint lower (s : string) : string :=
  match s with
  | EmptyString => EmptyString
  | String c rest => String (lower_char c) (lower rest)
  end.

(** Modelled from the spec: the Normalizer "removes default ports"; they are
    80 for http and 443 for https. *)
Definition drop_default_port (scheme : string) (port : option N) : option N :=
  match port with
  | Some n =>
      if (String.eqb scheme "http" && (n =? 80)%N) ||
         (String.eqb scheme "https" && (n =? 443)%N)
      then None else port
  | None => None
  end.

(** Modelled from the spec: the Normalizer "strips trailing slash"; a
    canonical [website_url] has its trailing slash stripped (data model), so
    none is left at the end of the path. *)
Fixpoint strip_trailing_slash (s : string) : string :=
  match s with
  | EmptyString => EmptyString
  | String c rest =>
      match strip_trailing_slash rest with
      | EmptyString => if Ascii.eqb c "/" then EmptyString else String c EmptyString
      | kept => String c kept
      end
  end.

(** Modelled from the spec: the Normalizer strips the tracking query
    parameters, those whose name starts with [utm_]. *)
Definition is_tracking (param : string * string) : bool :=
  String.prefix "utm_" (fst param).

(** Modelled from the spec: the Normalizer's removal of the tracking
    parameters; the other parameters keep their order. *)
Definition strip_tracking (query : list (string * string)) : list (string * string) :=
  List.filter (fun param => negb (is_tracking param)) query.

(** Modelled from the spec: the Normalizer's [canonicalize] is missing.
    Lower-cases scheme and host, removes a default port, strips the trailing
    slash and the [utm_*] parameters, and rejects with [InvalidURL] what is
    then not an absolute HTTP(S) URL. *)
Definition canonicalize (u : Url) : RejectionError + Url :=
  let s := lower (scheme u) in
  let h := lower (host u) in
  if (String.eqb s "http" || String.eqb s "https") && negb (String.eqb h "")
  then inr {| scheme := s;
              host := h;
              port := drop_default_port s (port u);
              path := strip_trailing_slash (path u);
              query := strip_tracking (query u);
              fragment := fragment u |}
  else inl InvalidURL.

(** ** Records, entities and the store *)

(** Modelled from the spec: the pricing enum of the data model is
    missing. *)
Inductive PricingModel : Type := Free | Freemium | Paid | Unknown.

(** Modelled from the spec: the collaborator's output type is missing; a
    raw record maps field names to strings. *)
Abbreviation RawRecord := (gmap string string).

(** Modelled from the spec: the NormalizedRecord type is missing. *)
Record NormalizedRecord : Type := mkNormalized {
  name : string;
  website_url : string;
  description : string;
  categories : gset string;
  tags : gset string;
  pricing_model : PricingModel;
  logo_url : option string;
  avg_rating : option Q;
  review_count : option N;
  source_site : string;
  scraped_at : N
}.

(** Modelled from the spec: the Entity type is missing. *)
Record Entity : Type := mkEntity {
  entity_id : nat;
  entity_name : string;
  entity_url : string;
  entity_description : string;
  category_ids : gset string;
  tag_ids : gset string;
  entity_pricing : PricingModel;
  entity_logo : option string;
  entity_rating : option Q;
  entity_reviews : option N;
  source_sites : gset string;
  created_at : N;
  updated_at : N
}.

(** Modelled from the spec: the store is an external collaborator; here it
    is a finite map keyed by [website_url] (the unique key) together with
    the next entity id, and writes to it do not fail. *)
Record Store : Type := mkStore {
  entities : gmap string Entity;
  next_id : nat
}.

(** Modelled from the spec: the store's [find_by_url] is missing. *)
Definition find_by_url (url : string) (s : Store) : option Entity := entities s !! url.

(** Modelled from the spec: the store's [insert] is missing; the new Entity
    takes the record's fields and the taxonomy ids that resolved. *)
Definition insert_entity (n : NormalizedRecord) (cats tgs : gset string) (s : Store) : Store :=
  {| entities :=
       <[website_url n :=
           {| entity_id := next_id s;
              entity_name := name n;
              entity_url := website_url n;
              entity_description := description n;
              category_ids := cats;
              tag_ids := tgs;
              entity_pricing := pricing_model n;
              entity_logo := logo_url n;
              entity_rating := avg_rating n;
              entity_reviews := review_count n;
              source_sites := {[source_site n]};
              created_at := scraped_at n;
              updated_at := scraped_at n |}]> (entities s);
     next_id := S (next_id s) |}.

(** Modelled from the spec: "fill only currently-empty fields" of the merge
    policy, for each kind of field; the empty values are the empty string,
    the empty set, an absent optional and the pricing [Unknown]. *)
Definition fill_string (old new : string) : string :=
  if String.eqb old "" then new else old.
Definition fill_set (old new : gset string) : gset string :=
  if decide (old = ∅) then new else old.
Definition fill_option {A : Type} (old new : option A) : option A :=
  match old with
  | Some _ => old
  | None => new
  end.
Definition fill_pricing (old new : PricingModel) : PricingModel :=
  match old with
  | Unknown => new
  | _ => old
  end.

(** Modelled from the spec: the merge policy is missing; it unions
    [source_sites] and fills only the fields that are empty on the existing
    entity ("first non-empty wins"). *)
Definition merge_fields (e : Entity) (n : NormalizedRecord) (cats tgs : gset string) : Entity :=
  {| entity_id := entity_id e;
     entity_name := fill_string (entity_name e) (name n);
     entity_url := fill_string (entity_url e) (website_url n);
     entity_description := fill_string (entity_description e) (description n);
     category_ids := fill_set (category_ids e) cats;
     tag_ids := fill_set (tag_ids e) tgs;
     entity_pricing := fill_pricing (entity_pricing e) (pricing_model n);
     entity_logo := fill_option (entity_logo e) (logo_url n);
     entity_rating := fill_option (entity_rating e) (avg_rating n);
     entity_reviews := fill_option (entity_reviews e) (review_count n);
     source_sites := source_sites e ∪ {[source_site n]};
     created_at := created_at e;
     updated_at := updated_at e |}.

(** Modelled from the spec: the store's [merge] is missing; the merged
    entity replaces the one stored under the record's URL. *)
Definition merge_entity (e : Entity) (n : NormalizedRecord) (cats tgs : gset string)
    (s : Store) : Store :=
  {| entities := <[website_url n := merge_fields e n cats tgs]> (entities s);
     next_id := next_id s |}.

(** The record [n], with the taxonomy ids it resolved to, has already been
    taken into [e]: merging it again changes nothing. *)
Definition absorbed (n : NormalizedRecord) (cats tgs : gset string) (e : Entity) : Prop :=
  merge_fields e n cats tgs = e.

(** ** Taxonomy misses *)

(** Modelled from the spec: the taxonomy term types of the data model are
    missing. *)
Inductive TermType : Type := Category | Tag | Feature.

(** Modelled from the spec: equality of term types, for the upsert. *)
Definition TermType_eqb (a b : TermType) : bool :=
  match a, b with
  | Category, Category | Tag, Tag | Feature, Feature => true
  | _, _ => false
  end.

(** Modelled from the spec: the MissingTaxonomyItem type is missing. *)
Record MissingTaxonomyItem : Type := mkMissing {
  missing_type : TermType;
  raw_name : string;
  first_seen_at : N;
  occurrence_count : nat
}.

(** Modelled from the spec: the store's [upsert_missing_taxonomy] is
    missing; a repeated miss increments the item's count, a first miss
    appends a new item. *)
Fixpoint upsert_missing (ty : TermType) (raw : string) (seen : N)
    (log : list MissingTaxonomyItem) : list MissingTaxonomyItem :=
  match log with
  | [] => [mkMissing ty raw seen 1]
  | item :: rest =>
      if TermType_eqb (missing_type item) ty && String.eqb (raw_name item) raw
      then mkMissing ty raw (first_seen_at item) (S (occurrence_count item)) :: rest
      else item :: upsert_missing ty raw seen rest
  end.

(** ** Jobs *)

(** Modelled from the spec: the Job lifecycle states of the data model are
    missing. *)
Inductive JobState : Type := Pending | Running | Completed | Failed.

(** Modelled from the spec: the four counters of a Job's [stats]. *)
Record Stats : Type := mkStats {
  total_processed : nat;
  successful_submissions : nat;
  failed_submissions : nat;
  duplicates_skipped : nat
}.

(** Modelled from the spec: the Job type is missing. *)
Record Job : Type := mkJob {
  job_id : string;
  spider_name : string;
  max_items : nat;
  state : JobState;
  stats : Stats;
  started_at : option N;
  ended_at : option N;
  error : option string
}.

(** Modelled from the spec: the statistics of a Job that has processed
    nothing. *)
Definition zero_stats : Stats := mkStats 0 0 0 0.

(** Modelled from the spec: the registry's [create] is missing; a Job is
    created [Pending] with all counters at zero. *)
Definition new_job (id spider : string) (cap : nat) : Job :=
  mkJob id spider cap Pending zero_stats None None None.

(** Modelled from the spec: the registry's update of a Job's statistics. *)
Definition with_stats (f : Stats -> Stats) (j : Job) : Job :=
  mkJob (job_id j) (spider_name j) (max_items j) (state j) (f (stats j))
    (started_at j) (ended_at j) (error j).

(** Modelled from the spec: the registry's [update_stats] is missing; it
    is an atomic increment of one counter. *)
Definition count_processed (s : Stats) : Stats :=
  mkStats (S (total_processed s)) (successful_submissions s) (failed_submissions s)
    (duplicates_skipped s).
Definition count_success (s : Stats) : Stats :=
  mkStats (total_processed s) (S (successful_submissions s)) (failed_submissions s)
    (duplicates_skipped s).
Definition count_failure (s : Stats) : Stats :=
  mkStats (total_processed s) (successful_submissions s) (S (failed_submissions s))
    (duplicates_skipped s).
Definition count_duplicate (s : Stats) : Stats :=
  mkStats (total_processed s) (successful_submissions s) (failed_submissions s)
    (S (duplicates_skipped s)).

(** Modelled from the spec: the registry's [transition] is missing; the
    states go [Pending], [Running], then [Completed] or [Failed], and every
    other transition is rejected. *)
Definition allowed (from to : JobState) : bool :=
  match from, to with
  | Pending, Running | Running, Completed | Running, Failed => true
  | _, _ => false
  end.

(** Modelled from the spec: [transition] stamps [started_at] on the move
    to [Running] and [ended_at] (with the error, if any) on the move to a
    terminal state. *)
Definition transition (to : JobState) (at_time : N) (err : option string) (j : Job)
    : option Job :=
  if allowed (state j) to then
    Some (match to with
          | Running =>
              mkJob (job_id j) (spider_name j) (max_items j) Running (stats j)
                (Some at_time) (ended_at j) (error j)
          | _ =>
              mkJob (job_id j) (spider_name j) (max_items j) to (stats j)
                (started_at j) (Some at_time) err
          end)
  else None.

(** ** The Ingestion Coordinator *)

(** Modelled from the spec: the coordinator's state is missing; it works
    on the Job it owns, the store, and the log of missing taxonomy items. *)
Record Pipe : Type := mkPipe {
  job : Job;
  store : Store;
  missing_log : list MissingTaxonomyItem
}.

(** Modelled from the spec: the extraction source is missing; a pull from
    the record stream yields a record, or the stream's fatal error. *)
Inductive Pull : Type :=
| Item (r : RawRecord)
| StreamError (message : string).

Section Coordinator.

(** The Record Normalizer as a whole (a pure function) and the Taxonomy
    Resolver's matching against the read-only taxonomy are collaborators of
    the coordinator; so is the wall clock. *)
Variable normalize : RawRecord -> RejectionError + NormalizedRecord.
Variable lookup_term : TermType -> string -> option string.
Variable now : N.

(** Modelled from the spec: the Taxonomy Resolver is missing; a term that
    does not match is left out and recorded as missing. *)
Definition resolve_all (ty : TermType) (raws : gset string) (seen : N)
    (log : list MissingTaxonomyItem) : gset string * list MissingTaxonomyItem :=
  fold_left (fun acc raw =>
      match lookup_term ty raw with
      | Some id => ({[id]} ∪ fst acc, snd acc)
      | None => (fst acc, upsert_missing ty raw seen (snd acc))
      end)
    (elements raws) (∅, log).

(** Modelled from the spec: the coordinator's per-record steps 1 to 3 are
    missing.  Normalize (a rejection counts as a failed submission), resolve
    categories and tags, then match on the exact [website_url] (the primary
    key; the secondary heuristic is the disabled-by-default policy): merge
    and count a duplicate, or insert and count a success. *)
Definition outcome_step (r : RawRecord) (p : Pipe) : Pipe :=
  match normalize r with
  | inl _ => mkPipe (with_stats count_failure (job p)) (store p) (missing_log p)
  | inr n =>
      let cats := resolve_all Category (categories n) (scraped_at n) (missing_log p) in
      let tgs := resolve_all Tag (tags n) (scraped_at n) (snd cats) in
      match find_by_url (website_url n) (store p) with
      | Some e =>
          mkPipe (with_stats count_duplicate (job p))
            (merge_entity e n (fst cats) (fst tgs) (store p)) (snd tgs)
      | None =>
          mkPipe (with_stats count_success (job p))
            (insert_entity n (fst cats) (fst tgs) (store p)) (snd tgs)
      end
  end.

(** Modelled from the spec: step 4, "increment [total_processed]
    unconditionally". *)
Definition count_step (p : Pipe) : Pipe :=
  mkPipe (with_stats count_processed (job p)) (store p) (missing_log p).

(** Modelled from the spec: steps 1 to 4 for one record. *)
Definition process_record (r : RawRecord) (p : Pipe) : Pipe :=
  count_step (outcome_step r p).

(** Modelled from the spec: the Job's move to a terminal state. *)
Definition finish (to : JobState) (err : option string) (p : Pipe) : Pipe :=
  match transition to now err (job p) with
  | Some j => mkPipe j (store p) (missing_log p)
  | None => p
  end.

(** Modelled from the spec: step 5, "once [total_processed] reaches the
    configured cap". *)
Definition cap_reached (p : Pipe) : bool :=
  (max_items (job p) <=? total_processed (stats (job p)))%nat.

(** Modelled from the spec: the coordinator's loop is missing.  Records are
    pulled in arrival order, and none is pulled once [total_processed] has
    reached the cap (step 5): the cap is looked at before every pull, which
    after a record is the check of step 5 and before the first one keeps a
    Job whose cap is 0 from pulling at all.  The job ends [Completed] at the
    cap or at the end of the stream and [Failed] on a stream error.  The
    second component is what was left unpulled. *)
Fixpoint drive (stream : list Pull) (p : Pipe) : Pipe * list Pull :=
  if cap_reached p then (finish Completed None p, stream) else
  match stream with
  | [] => (finish Completed None p, [])
  | StreamError message :: rest => (finish Failed (Some message) p, rest)
  | Item r :: rest => drive rest (process_record r p)
  end.

(** Modelled from the spec: [run_job] is missing; it moves the Job to
    [Running] and drives the stream. *)
Definition run_job (j : Job) (stream : list Pull) (s : Store)
    (log : list MissingTaxonomyItem) : Pipe * list Pull :=
  match transition Running now None j with
  | Some j' => drive stream (mkPipe j' s log)
  | None => (mkPipe j s log, stream)
  end.

(** ** The job submission endpoint *)

(** The text of the refusal and the scheme of job identifiers are the
    server's choice. *)
Variable already_running_message : string.
Variable make_job_id : nat -> string.

(** Modelled from the spec: the [is_running] test of the single-active-job
    rule. *)
Definition is_running (j : Job) : bool :=
  match state j with
  | Running => true
  | _ => false
  end.

(** Modelled from the spec: the handler of [POST /api/start-scraping] is
    missing.  While a Job is [Running] the submission is refused with a
    failure value in a normal response; otherwise a Job is created and
    started.  The result is the registry and how the dashboard's request
    settles. *)
Definition start_scraping (registry : list Job) (spider : string) (cap : nat)
    : list Job * Response :=
  if existsb is_running registry then
    (registry,
     Resolved (JObj (<["success" := JBool false]>
                    (<["message" := JStr already_running_message]> ∅))))
  else
    let id := make_job_id (length registry) in
    let j := default (new_job id spider cap)
               (transition Running now None (new_job id spider cap)) in
    (registry ++ [j],
     Resolved (JObj (<["success" := JBool true]> (<["job_id" := JStr id]> ∅)))).

(** The taxonomy ids a set of raw terms resolves to. *)
Definition resolved_ids (ty : TermType) (raws : gset string) : gset string :=
  fst (resolve_all ty raws 0 []).

(** The record [n] has been ingested into the store of [p]. *)
Definition ingested (n : NormalizedRecord) (p : Pipe) : Prop :=
  exists e, find_by_url (website_url n) (store p) = Some e /\
            absorbed n (resolved_ids Category (categories n)) (resolved_ids Tag (tags n)) e.

End Coordinator.


(** ** A small pipeline instance for the scenarios *)

(** A normalizer that takes the fields as they come and rejects a record
    without a [website_url]. *)
Definition scenario_normalize (r : RawRecord) : RejectionError + NormalizedRecord :=
  match r !! "website_url" with
  | Some url =>
      inr (mkNormalized (default "" (r !! "name")) url (default "" (r !! "description"))
             ∅ ∅ Unknown None None None (default "" (r !! "source_site")) 0)
  | None => inl InvalidURL
  end.

Definition scenario_record (tool url : string) : RawRecord :=
  <["name" := tool]> (<["website_url" := url]> (<["source_site" := "futuretools"]> ∅)).

Definition no_taxonomy (ty : TermType) (raw : string) : option string := None.

Definition empty_store : Store := mkStore ∅ 0.

(** A status snapshot with a job running, one with the same counts and
    further detail, and one with no job. *)
Definition snapshot_running : JVal :=
  JObj (<["is_running" := JBool true]> (<["current_job" := JStr "futuretools"]>
       (<["stats" := JObj (<["total_processed" := JNum 3]>
                          (<["successful_submissions" := JNum 2]>
                          (<["failed_submissions" := JNum 0]>
                          (<["duplicates_skipped" := JNum 1]> ∅))))]> ∅))).


Definition snapshot_idle : JVal :=
  JObj (<["is_running" := JBool false]> (<["current_job" := JNull]> ∅)).


Definition running_job : Job :=
  mkJob "job-1" "futuretools" 50 Running zero_stats (Some 0%N) None None.

(** * Properties of the dashboard *)

(** ** Reading properties *)


Lemma member_defined (v : JVal) (key : string) :
  nullish v = false -> member v key = inr (lookup_prop v key).
Proof. intros H. unfold member. by rewrite H. Qed.

Lemma truthy_prop_not_nullish (v : JVal) (key : string) :
  truthy (lookup_prop v key) = true -> nullish v = false.
Proof. by destruct v. Qed.

(** ** The event loop keeps its invariant *)

Section Event_loop.
Variable env : option string.
Variable gz : JVal -> bool.

Local Abbreviation tame := (tame env gz).
Local Abbreviation extends := (extends env gz).
Local Abbreviation world_ok := (world_ok env gz).

(** Handler code only ever extends the world. *)
Lemma extends_refl w : extends w w.
Proof. unfold extends. repeat split. exists []. by rewrite app_nil_r. Qed.

Lemma extends_trans w1 w2 w3 : extends w1 w2 -> extends w2 w3 -> extends w1 w3.
Proof.
  intros (a1 & a2 & a3 & a4 & e1 & a6 & a7) (b1 & b2 & b3 & b4 & e2 & b6 & b7).
  unfold extends. repeat split; try congruence.
  exists (e1 ++ e2). split; [by rewrite b6, a6, app_assoc | by apply Forall_app].
Qed.

Lemma exec_tame allowed p : tame allowed p -> forall w, extends w (exec p w).
Proof.
  induction 1; intros w; simpl.
  - apply extends_refl.
  - eapply extends_trans; [|apply IHtame].
    destruct (mounted w) eqn:E; [|apply extends_refl].
    unfold extends; simpl. repeat split; try done. exists []. by rewrite app_nil_r.
  - eapply extends_trans; [|apply IHtame].
    unfold extends; simpl. repeat split. exists []. by rewrite app_nil_r.
  - eapply extends_trans; [|apply IHtame].
    unfold extends; simpl. repeat split. exists []. by rewrite app_nil_r.
  - unfold extends; simpl. repeat split. eexists; split; [reflexivity|].
    constructor; [apply waiting_fetch | constructor].
  - unfold extends; simpl. repeat split. eexists; split; [reflexivity|].
    constructor; [apply waiting_start | constructor].
  - eapply extends_trans; [apply IHtame1 | apply IHtame2].
Qed.

Lemma exec_tame_status p :
  tame keeps_status p -> forall w, pipelineStatus (ui (exec p w)) = pipelineStatus (ui w).
Proof.
  induction 1; intros w; simpl; try done.
  - rewrite IHtame. destruct (mounted w); [apply H | done].
  - by rewrite IHtame.
  - by rewrite IHtame.
  - by rewrite IHtame2, IHtame1.
Qed.

(** Walks through the branches of a handler. *)
Ltac tame_cases :=
  repeat match goal with
  | |- tame _ (match ?x with _ => _ end) => destruct x
  | |- tame _ (if ?x then _ else _) => destruct x
  | |- tame _ (attempt _ _ _) => unfold attempt
  | |- tame _ Done => constructor
  | |- tame _ (SetState _ _) => constructor; [try (exact I || (intros ?; reflexivity)) |]
  | |- tame _ (AlertBox _ _) => constructor
  | |- tame _ (ConsoleError _ _ _) => constructor
  | |- tame _ (Call _ _) => constructor
  | |- tame _ _ => progress simpl
  end.

Lemma fetchPipelineStatus_tame : tame keeps_status (fetchPipelineStatus env).
Proof. apply (tame_fetch env gz _ Status). Qed.

Lemma fetch_settled_tame f r :
  tame (fun _ => True) (fetch_settled gz f r).
Proof. destruct f, r; tame_cases. Qed.

Lemma fetch_settled_quiet f r :
  (forall data, (f, r) <> (Status, Resolved data)) ->
  tame keeps_status (fetch_settled gz f r).
Proof.
  intros Hne. destruct f, r; tame_cases.
  by destruct (Hne data).
Qed.

Lemma start_settled_quiet r : tame keeps_status (startScrapingJob_settled env r).
Proof.
  destruct r; tame_cases; apply fetchPipelineStatus_tame.
Qed.

Lemma startScrapingJob_quiet sp n : tame keeps_status (startScrapingJob env sp n).
Proof. unfold startScrapingJob. tame_cases. apply tame_start. Qed.

Lemma fetch_prog_quiet f : tame keeps_status (fetch_prog env gz f).
Proof.
  destruct f as [| | | | |spider].
  - apply (tame_fetch env gz _ Spiders).
  - apply (tame_fetch env gz _ Status).
  - apply (tame_fetch env gz _ Services).
  - apply (tame_fetch env gz _ Logs).
  - apply (tame_fetch env gz _ Taxonomy).
  - apply (tame_fetch env gz _ (Results spider)).
Qed.

(** The invariant holds at mount and is kept by every input. *)
Lemma world_ok_extends w w' : extends w w' -> world_ok w -> world_ok w'.
Proof.
  intros (Hm & Hc & Hk & Ht & extra & Hp & He) [Hw Hrest].
  unfold world_ok. rewrite Hm, Hc, Hk, Ht, Hp. split; [by apply Forall_app | done].
Qed.

Lemma take_pending_spec id l p rest :
  take_pending id l = Some (p, rest) ->
  ticket p = id /\ In p l /\ forall P : InFlight -> Prop, Forall P l -> Forall P rest.
Proof.
  revert p rest. induction l as [|x l IH]; intros p rest; simpl; [done|].
  destruct (Nat.eqb (ticket x) id) eqn:E.
  - intros [= <- <-]. apply Nat.eqb_eq in E. split; [done|]. split; [by left|].
    intros P HP. by inversion HP.
  - destruct (take_pending id l) as [[q rest']|] eqn:T; [|done].
    intros [= <- <-]. destruct (IH q rest' eq_refl) as (H1 & H2 & H3).
    split; [done|]. split; [by right|].
    intros P HP. inversion HP; subst. constructor; [done | by apply H3].
Qed.

Lemma boot_ok : world_ok (boot env gz).
Proof.
  split.
  - simpl. repeat constructor.
    + apply (waiting_fetch _ _ 0 Spiders).
    + apply (waiting_fetch _ _ 1 Status).
    + apply (waiting_fetch _ _ 2 Services).
  - simpl. split; [done|]. exists 0%N. split; [done | lia].
Qed.

Lemma tick_mounted w q :
  mounted w = true ->
  timers w = [poll_timer env (3000 * (q + 1))] ->
  (3000 * q <= clock w < 3000 * (q + 1))%N ->
  tick w =
  if (clock w + 1 =? 3000 * (q + 1))%N
  then send (GET (API_BASE_URL env +:+ "/api/status")) (fetchPipelineStatus_settled)
         (with_timers (fun _ => [poll_timer env (3000 * (q + 1) + 3000)]) (advance_clock w))
  else advance_clock w.
Proof.
  intros Hm Ht Hc. unfold tick. simpl. rewrite Ht. simpl.
  rewrite (N.eqb_sym (3000 * (q + 1))%N).
  destruct (clock w + 1 =? 3000 * (q + 1))%N eqn:E; [|done].
  unfold registered. simpl. rewrite Ht. simpl.
  unfold send, reschedule, with_timers, advance_clock. simpl. rewrite Ht. reflexivity.
Qed.

Lemma tick_ok w : world_ok w -> world_ok (tick w).
Proof.
  intros [Hp Hrest]. destruct (mounted w) eqn:Hm.
  - destruct Hrest as [Hc (q & Ht & Hq)].
    rewrite (tick_mounted w q Hm Ht Hq).
    destruct (clock w + 1 =? 3000 * (q + 1))%N eqn:E.
    + apply N.eqb_eq in E. split; simpl.
      * apply Forall_app. split; [done|]. constructor; [apply (waiting_fetch _ _ _ Status) | constructor].
      * rewrite Hm. split; [done|]. exists (q + 1)%N. split; [f_equal; f_equal; lia | lia].
    + apply N.eqb_neq in E. split; simpl; [done|].
      rewrite Hm. split; [done|]. exists q. split; [done | lia].
  - destruct Hrest as [Hc Ht]. unfold tick. simpl. rewrite Ht. simpl.
    split; simpl; [done|]. by rewrite Hm.
Qed.

Lemma respond_ok id r w : world_ok w -> world_ok (respond id r w).
Proof.
  intros Hw. unfold respond.
  destruct (take_pending id (pending w)) as [[p rest]|] eqn:T; [|done].
  destruct (take_pending_spec _ _ _ _ T) as (_ & Hin & Hrest).
  destruct Hw as [Hp Hw].
  assert (Hp' : waiting env gz p) by (rewrite Forall_forall in Hp; by apply Hp, list_elem_of_In).
  apply (world_ok_extends (with_pending rest w)).
  - destruct Hp' as [i f | i body]; simpl.
    + eapply exec_tame, fetch_settled_tame.
    + eapply exec_tame, start_settled_quiet.
  - split; simpl; [by apply Hrest | done].
Qed.

Lemma unmount_ok w : world_ok w -> mounted w = true -> world_ok (unmount w).
Proof.
  intros [Hp Hw] Hm. rewrite Hm in Hw. destruct Hw as [Hc (q & Ht & Hq)].
  unfold unmount. rewrite Hc. simpl. rewrite Ht. split; simpl; done.
Qed.

Lemma set_state_extends f w : extends w (with_state f w).
Proof. unfold extends; simpl. repeat split. exists []. by rewrite app_nil_r. Qed.

Lemma handle_ok w i : world_ok w -> world_ok (handle env w i).
Proof.
  intros Hw.
  assert (Hext : forall w', extends w w' -> world_ok w')
    by (intros w' H; by apply (world_ok_extends w)).
  destruct i; simpl.
  - by apply tick_ok.
  - by apply respond_ok.
  - destruct (mounted w); simpl; [|done].
    destruct (start_clickable (ui w)); [|done].
    apply Hext. exact (exec_tame _ _ (startScrapingJob_quiet _ _) w).
  - destruct (mounted w); simpl; [|done].
    destruct (load_target index (ui w)) as [spider|]; [|done].
    apply Hext. exact (exec_tame _ _ (fetch_prog_quiet (Results (to_string spider))) w).
  - destruct (mounted w); simpl; [|done].
    destruct (String.eqb (activeTab (ui w)) "logs"); [|done].
    apply Hext. exact (exec_tame _ _ (fetch_prog_quiet Logs) w).
  - destruct (mounted w); simpl; [|done].
    destruct (String.eqb (activeTab (ui w)) "taxonomy"); [|done].
    apply Hext. exact (exec_tame _ _ (fetch_prog_quiet Taxonomy) w).
  - destruct (mounted w); simpl; [|done].
    apply Hext, set_state_extends.
  - destruct (mounted w); simpl; [|done].
    destruct (String.eqb (activeTab (ui w)) "scraping"); [|done].
    apply Hext, set_state_extends.
  - destruct (mounted w); simpl; [|done].
    destruct (String.eqb (activeTab (ui w)) "scraping"); [|done].
    apply Hext, set_state_extends.
  - destruct (mounted w) eqn:Hm; [|done]. by apply unmount_ok.
Qed.

(** The cleanup of the mount effect touches the timers only. *)
Lemma unmount_quiet w :
  cleanup w = Some (ClearInterval 0 Done) ->
  ui (unmount w) = ui w /\ trace (unmount w) = trace w /\ pending (unmount w) = pending w /\
  clock (unmount w) = clock w /\ next_ticket (unmount w) = next_ticket w.
Proof. intros Hc. unfold unmount. rewrite Hc. by simpl. Qed.

Lemma settle_ok w : world_ok w -> world_ok (settle gz w).
Proof.
  intros Hw. unfold settle. destruct (mounted w) eqn:Hm; simpl; [|done].
  destruct (crashes gz (ui w)); [by apply unmount_ok | done].
Qed.

Lemma settle_quiet w :
  world_ok w ->
  ui (settle gz w) = ui w /\ trace (settle gz w) = trace w /\
  pending (settle gz w) = pending w /\ clock (settle gz w) = clock w /\
  next_ticket (settle gz w) = next_ticket w.
Proof.
  intros [_ Hw]. unfold settle. destruct (mounted w) eqn:Hm; simpl; [|done].
  destruct (crashes gz (ui w)); [|done].
  destruct Hw as [Hc _]. by apply unmount_quiet.
Qed.

Lemma settle_mounted w : mounted (settle gz w) = mounted w && negb (crashes gz (ui w)).
Proof.
  unfold settle. destruct (mounted w) eqn:Hm; simpl; [|done].
  by destruct (crashes gz (ui w)).
Qed.

Lemma step_ok w i : world_ok w -> world_ok (step env gz w i).
Proof. intros Hw. by apply settle_ok, handle_ok. Qed.

Lemma step_quiet w i :
  world_ok w ->
  ui (step env gz w i) = ui (handle env w i) /\
  trace (step env gz w i) = trace (handle env w i) /\
  pending (step env gz w i) = pending (handle env w i) /\
  clock (step env gz w i) = clock (handle env w i) /\
  next_ticket (step env gz w i) = next_ticket (handle env w i).
Proof. intros Hw. by apply settle_quiet, handle_ok. Qed.

Lemma run_ok inputs : forall w, world_ok w -> world_ok (run env gz w inputs).
Proof.
  induction inputs as [|i inputs IH]; intros w Hw; simpl; [done|].
  apply IH. by apply step_ok.
Qed.


(** No handler unmounts; [Unmount] does. *)
Lemma handle_mounted w i :
  world_ok w -> mounted (handle env w i) = mounted w && negb (is_unmount i).
Proof.
  intros Hw.
  assert (Hm : forall i', is_unmount i' = false -> mounted (handle env w i') = mounted w).
  { intros i' Hi. destruct i'; try discriminate Hi; simpl.
    - destruct Hw as [_ Hw]. destruct (mounted w) eqn:E.
      + destruct Hw as [_ (q & Ht & Hq)]. rewrite (tick_mounted w q E Ht Hq).
        by destruct (clock w + 1 =? 3000 * (q + 1))%N.
      + destruct Hw as [_ Ht]. unfold tick. simpl. by rewrite Ht.
    - unfold respond.
      destruct (take_pending id (pending w)) as [[p rest]|] eqn:T; [|done].
      destruct (take_pending_spec _ _ _ _ T) as (_ & Hin & _).
      destruct Hw as [Hp _]. rewrite Forall_forall in Hp.
      destruct (Hp p ltac:(by apply list_elem_of_In)) as [k f | k body]; simpl.
      + by destruct (exec_tame _ _ (fetch_settled_tame f r) (with_pending rest w)) as [-> _].
      + by destruct (exec_tame _ _ (start_settled_quiet r) (with_pending rest w)) as [-> _].
    - destruct (mounted w) eqn:E; simpl; [|done].
      destruct (start_clickable (ui w)); [|done].
      by destruct (exec_tame _ _ (startScrapingJob_quiet (selectedSpider (ui w)) (maxItems (ui w))) w) as [-> _].
    - destruct (mounted w) eqn:E; simpl; [|done].
      destruct (load_target index (ui w)); simpl; done.
    - destruct (mounted w) eqn:E; simpl; [|done].
      destruct (String.eqb (activeTab (ui w)) "logs"); simpl; done.
    - destruct (mounted w) eqn:E; simpl; [|done].
      destruct (String.eqb (activeTab (ui w)) "taxonomy"); simpl; done.
    - by destruct (mounted w) eqn:E.
    - destruct (mounted w) eqn:E; simpl; [|done].
      destruct (String.eqb (activeTab (ui w)) "scraping"); simpl; done.
    - destruct (mounted w) eqn:E; simpl; [|done].
      destruct (String.eqb (activeTab (ui w)) "scraping"); simpl; done. }
  destruct (is_unmount i) eqn:Hi.
  - destruct i; try discriminate Hi. simpl. destruct (mounted w) eqn:E; simpl; [|done].
    reflexivity.
  - rewrite (Hm i Hi). by rewrite andb_true_r.
Qed.

(** The component leaves the page on [Unmount] or when the render after an
    input throws, and only then. *)
Lemma step_mounted w i :
  world_ok w ->
  mounted (step env gz w i) =
  mounted w && negb (is_unmount i) && negb (crashes gz (ui (step env gz w i))).
Proof.
  intros Hw. destruct (step_quiet w i Hw) as (-> & _).
  unfold step. by rewrite settle_mounted, handle_mounted.
Qed.

(** Arithmetic of the 3000 ms period. *)
Lemma due_next_multiple (q c : N) :
  (3000 * q <= c < 3000 * (q + 1))%N -> (3000 * (q + 1) = 3000 * (c / 3000 + 1))%N.
Proof.
  intros H. f_equal. f_equal.
  apply (N.div_unique c 3000 q (c - 3000 * q)); lia.
Qed.

Lemma at_multiple (q c : N) :
  (3000 * q <= c < 3000 * (q + 1))%N ->
  ((c + 1 =? 3000 * (q + 1)) = ((c + 1) mod 3000 =? 0))%N.
Proof.
  intros H. destruct (c + 1 =? 3000 * (q + 1))%N eqn:E.
  - apply N.eqb_eq in E. rewrite E. symmetry. apply N.eqb_eq.
    rewrite N.mul_comm. by apply N.Div0.mod_mul.
  - apply N.eqb_neq in E. symmetry. apply N.eqb_neq.
    rewrite <- (N.mod_unique (c + 1) 3000 q (c + 1 - 3000 * q)) by lia. lia.
Qed.

(** The displayed status changes only when a status request resolves. *)
Lemma handle_status w i :
  world_ok w ->
  pipelineStatus (ui (handle env w i)) = pipelineStatus (ui w) \/
  exists id data rest,
    i = Respond id (Resolved data) /\
    take_pending id (pending w) =
      Some (mkInFlight id (GET (API_BASE_URL env +:+ "/api/status"))
              fetchPipelineStatus_settled, rest) /\
    pipelineStatus (ui (handle env w i)) = data.
Proof.
  intros Hw. destruct i; simpl.
  - left. destruct Hw as [_ Hw]. destruct (mounted w) eqn:E.
    + destruct Hw as [_ (q & Ht & Hq)]. rewrite (tick_mounted w q E Ht Hq).
      by destruct (clock w + 1 =? 3000 * (q + 1))%N.
    + destruct Hw as [_ Ht]. unfold tick. simpl. by rewrite Ht.
  - unfold respond.
    destruct (take_pending id (pending w)) as [[p rest]|] eqn:T; [|by left].
    destruct (take_pending_spec _ _ _ _ T) as (Hid & Hin & _).
    destruct Hw as [Hp _]. rewrite Forall_forall in Hp.
    destruct (Hp p ltac:(by apply list_elem_of_In)) as [k f | k body]; simpl in *; subst k.
    + assert (Hq : forall f', f' <> Status ->
                pipelineStatus (ui (exec (fetch_settled gz f' r) (with_pending rest w))) =
                pipelineStatus (ui w)).
      { intros f' Hf.
        rewrite exec_tame_status; [done|]. apply fetch_settled_quiet. by intros d [= -> _]. }
      destruct f; try (left; apply Hq; discriminate).
      destruct r as [data|message]; simpl; [|by left].
      destruct (mounted w) eqn:E; simpl; [|by left].
      right. by exists id, data, rest.
    + left. exact (exec_tame_status _ (start_settled_quiet r) (with_pending rest w)).
  - left. destruct (mounted w); simpl; [|done].
    destruct (start_clickable (ui w)); [|done].
    exact (exec_tame_status _ (startScrapingJob_quiet _ _) w).
  - left. destruct (mounted w); simpl; [|done].
    destruct (load_target index (ui w)); simpl; done.
  - left. destruct (mounted w); simpl; [|done].
    destruct (String.eqb (activeTab (ui w)) "logs"); simpl; done.
  - left. destruct (mounted w); simpl; [|done].
    destruct (String.eqb (activeTab (ui w)) "taxonomy"); simpl; done.
  - left. by destruct (mounted w).
  - left. destruct (mounted w); simpl; [|done].
    destruct (String.eqb (activeTab (ui w)) "scraping"); simpl; done.
  - left. destruct (mounted w); simpl; [|done].
    destruct (String.eqb (activeTab (ui w)) "scraping"); simpl; done.
  - left. destruct (mounted w) eqn:E; [|done].
    destruct Hw as [_ Hw]. rewrite E in Hw. destruct Hw as [Hc _].
    unfold unmount. by rewrite Hc.
Qed.

Lemma step_status w i :
  world_ok w ->
  pipelineStatus (ui (step env gz w i)) = pipelineStatus (ui w) \/
  exists id data rest,
    i = Respond id (Resolved data) /\
    take_pending id (pending w) =
      Some (mkInFlight id (GET (API_BASE_URL env +:+ "/api/status"))
              fetchPipelineStatus_settled, rest) /\
    pipelineStatus (ui (step env gz w i)) = data.
Proof.
  intros Hw. destruct (step_quiet w i Hw) as (-> & _). by apply handle_status.
Qed.

(** C3.  The mount effect registers one interval of 3000 ms and keeps the
    cleanup that clears it.  The component leaves the page when it is
    unmounted or when the render after an input throws, and only then.
    While it is mounted, the only timer is that interval, and a millisecond
    tick sends a request exactly when the clock reaches the next multiple of
    3000 ms: one [GET /api/status] and nothing else.  Once it has left the
    page the interval is cleared and no tick sends anything.  The displayed
    status never changes except when such a [GET /api/status] of the
    dashboard's own resolves: there is no push channel. *)
Theorem status_polling (inputs : list Input) :
  let w := run env gz (boot env gz) inputs in
  timers (boot env gz) = [poll_timer env 3000] /\
  cleanup (boot env gz) = Some (ClearInterval 0 Done) /\
  mounted (boot env gz) = true /\
  (forall i : Input,
     mounted (step env gz w i) =
     mounted w && negb (is_unmount i) && negb (crashes gz (ui (step env gz w i)))) /\
  timers w = (if mounted w then [poll_timer env (3000 * (clock w / 3000 + 1))] else []) /\
  trace (step env gz w Tick) =
    trace w ++
    (if mounted w && ((clock w + 1) mod 3000 =? 0)%N
     then [((clock w + 1)%N,
            Requested (next_ticket w) (GET (API_BASE_URL env +:+ "/api/status")))]
     else []) /\
  forall i : Input,
    pipelineStatus (ui (step env gz w i)) = pipelineStatus (ui w) \/
    exists id data rest,
      i = Respond id (Resolved data) /\
      take_pending id (pending w) =
        Some (mkInFlight id (GET (API_BASE_URL env +:+ "/api/status"))
                fetchPipelineStatus_settled, rest) /\
      pipelineStatus (ui (step env gz w i)) = data.
Proof.
  intros w.
  assert (Hw : world_ok w) by apply run_ok, boot_ok.
  split; [reflexivity|]. split; [reflexivity|]. split; [reflexivity|].
  split; [intros i; by apply step_mounted|].
  split; [|split].
  - destruct Hw as [_ Hw]. destruct (mounted w).
    + destruct Hw as [_ (q & -> & Hq)]. unfold poll_timer. f_equal. f_equal.
      by apply due_next_multiple.
    + by destruct Hw.
  - destruct (step_quiet w Tick Hw) as (_ & -> & _).
    simpl. destruct Hw as [_ Hw]. destruct (mounted w) eqn:E.
    + destruct Hw as [_ (q & Ht & Hq)]. rewrite (tick_mounted w q E Ht Hq).
      simpl. rewrite <- (at_multiple q (clock w) Hq).
      destruct (clock w + 1 =? 3000 * (q + 1))%N; simpl; [done | by rewrite app_nil_r].
    + destruct Hw as [_ Ht]. unfold tick. simpl. rewrite Ht. simpl. by rewrite app_nil_r.
  - intros i. by apply step_status.
Qed.

End Event_loop.

(** ** Handlers *)

Section Handlers.
Variable env : option string.
Variable gz : JVal -> bool.

(** C10.  With the empty string as the selected spider, the submission
    handler only shows the alert: no request is sent, and the component
    state (the loading flag included), the requests in flight and the timers
    are as before. *)
Theorem no_spider_no_request (maxItems : JVal) (w : World) :
  let w' := exec (startScrapingJob env (JStr "") maxItems) w in
  ui w' = ui w /\
  pending w' = pending w /\
  next_ticket w' = next_ticket w /\
  timers w' = timers w /\
  trace w' = trace w ++ [(clock w, Alerted [Lit "Please select a spider"])].
Proof. repeat split. Qed.

(** C9.  Each of the six fetches sends its GET and changes no state; when
    that request is rejected, whatever happened in between, the function
    only logs its console error: the component state, the requests in flight
    and the timers stay as they were. *)
Theorem fetch_failure_keeps_state (f : Fetch) (w : World) :
  exec (fetch_prog env gz f) w = send (fetch_request env f) (fetch_settled gz f) w /\
  ui (exec (fetch_prog env gz f) w) = ui w /\
  forall (message : string) (w' : World),
    let w'' := exec (fetch_settled gz f (Rejected message)) w' in
    ui w'' = ui w' /\
    pending w'' = pending w' /\
    timers w'' = timers w' /\
    trace w'' = trace w' ++ [(clock w', Logged (fetch_label f) (AxiosError message))].
Proof.
  split; [|split].
  - destruct f; reflexivity.
  - destruct f; reflexivity.
  - intros message w'. destruct f; repeat split.
Qed.

(** C8.  Fetching the scraping results of spider [s] leaves the results
    stored under every other key as they are, both when the request is sent
    and when it settles, whatever the response and the state at that time. *)
Theorem results_fetch_frame (s key : string) (r : Response) (w : World) :
  key <> s ->
  scrapingResults (ui (exec (fetchScrapingResults env s) w)) !! key =
    scrapingResults (ui w) !! key /\
  scrapingResults (ui (exec (fetchScrapingResults_settled s r) w)) !! key =
    scrapingResults (ui w) !! key.
Proof.
  intros Hne. split; [reflexivity|].
  destruct r as [data|message]; simpl; [|reflexivity].
  destruct (mounted w); simpl; [|reflexivity].
  by rewrite lookup_insert_ne.
Qed.
End Handlers.

(** ** The job status view *)





(** ** Job submission *)

Section Submission.
Variable env : option string.
Variable now : N.
Variable already_running_message : string.
Variable make_job_id : nat -> string.

Lemma start_body_fields (sp n : JVal) (key : string) :
  lookup_prop (start_body sp n) key =
  if String.eqb key "spider_name" then sp
  else if String.eqb key "max_items" then n
  else JUndefined.
Proof.
  unfold start_body, lookup_prop.
  destruct (String.eqb_spec key "spider_name") as [->|H1].
  - by rewrite lookup_insert_eq.
  - rewrite lookup_insert_ne by done.
    destruct (String.eqb_spec key "max_items") as [->|H2].
    + by rewrite lookup_insert_eq.
    + rewrite lookup_insert_ne by done. by rewrite lookup_empty.
Qed.

(** C2.  A submission with a spider selected sends one POST to
    [/api/start-scraping] whose body has exactly the fields [spider_name]
    and [max_items].  The endpoint answers [{success, job_id}] when no Job
    is running, and, while a Job is [Running], a normal response carrying
    [{success: false, message}]; the dashboard then shows that message in an
    alert and clears the loading flag.  Whenever the status snapshot reports
    [is_running] the submit button is disabled and cannot be clicked. *)
Theorem job_submission_contract
    (sp n : JVal) (w w' : World) (busy idle : list Job) (spider : string) (cap : nat)
    (st : AppState) :
  truthy sp = true ->
  existsb is_running busy = true ->
  existsb is_running idle = false ->
  truthy (lookup_prop (pipelineStatus st) "is_running") = true ->
  (* the request *)
  (exec (startScrapingJob env sp n) w =
     send (POST (API_BASE_URL env +:+ "/api/start-scraping") (start_body sp n))
          (startScrapingJob_settled env)
          (if mounted w then with_state (setLoading true) w else w)) /\
  (forall key : string,
     lookup_prop (start_body sp n) key =
     if String.eqb key "spider_name" then sp
     else if String.eqb key "max_items" then n
     else JUndefined) /\
  (* the two responses *)
  (start_scraping now already_running_message make_job_id idle spider cap =
     (idle ++ [mkJob (make_job_id (length idle)) spider cap Running zero_stats
                 (Some now) None None],
      Resolved (JObj (<["success" := JBool true]>
                     (<["job_id" := JStr (make_job_id (length idle))]> ∅))))) /\
  (start_scraping now already_running_message make_job_id busy spider cap =
     (busy,
      Resolved (JObj (<["success" := JBool false]>
                     (<["message" := JStr already_running_message]> ∅))))) /\
  (* the refusal reaches the operator as the message *)
  (exec (startScrapingJob_settled env
           (snd (start_scraping now already_running_message make_job_id busy spider cap))) w' =
     exec (SetState (setLoading false) Done)
       (emit (Alerted [Lit "Failed to start scraping: "; Hole (JStr already_running_message)])
          w')) /\
  (* the submit control *)
  (exists disabled,
     truthy disabled = true /\
     start_button st =
       inr (Elem "button"
              [("disabled", disabled);
               ("className",
                JStr "w-full px-4 py-2 rounded-md font-medium bg-gray-400 cursor-not-allowed text-white")]
              [Text (if loading st then "Starting..." else "Start Scraping")])) /\
  start_clickable st = false.
Proof.
  intros Hsp Hbusy Hidle Hrun.
  split; [|split; [|split; [|split; [|split; [|split]]]]].
  - unfold startScrapingJob. rewrite Hsp. reflexivity.
  - apply start_body_fields.
  - unfold start_scraping. rewrite Hidle. reflexivity.
  - unfold start_scraping. rewrite Hbusy. reflexivity.
  - unfold start_scraping. rewrite Hbusy. reflexivity.
  - assert (Hd : truthy (js_or (JBool (loading st))
                           (lookup_prop (pipelineStatus st) "is_running")) = true).
    { unfold js_or. destruct (loading st); simpl; [reflexivity | exact Hrun]. }
    eexists; split; [exact Hd|].
    unfold start_button, start_disabled.
    rewrite member_defined by (eapply truthy_prop_not_nullish; eauto).
    by rewrite Hd.
  - unfold start_clickable, start_disabled.
    rewrite member_defined by (eapply truthy_prop_not_nullish; eauto).
    unfold js_or. destruct (loading st); simpl.
    + apply andb_false_r.
    + rewrite Hrun. apply andb_false_r.
Qed.
End Submission.

(** * Properties of the pipeline *)

(** ** URL canonicalization *)

Lemma lower_char_idem (c : ascii) : lower_char (lower_char c) = lower_char c.
Proof. destruct c as [[] [] [] [] [] [] [] []]; reflexivity. Qed.

Lemma lower_idem (s : string) : lower (lower s) = lower s.
Proof. induction s as [|c s IH]; simpl; [done|]. by rewrite lower_char_idem, IH. Qed.

Lemma drop_default_port_idem (s : string) (p : option N) :
  drop_default_port s (drop_default_port s p) = drop_default_port s p.
Proof.
  destruct p as [n|]; simpl; [|done].
  destruct ((String.eqb s "http" && (n =? 80)%N) || (String.eqb s "https" && (n =? 443)%N)) eqn:E;
    simpl; [done | by rewrite E].
Qed.

Lemma strip_trailing_slash_idem (s : string) :
  strip_trailing_slash (strip_trailing_slash s) = strip_trailing_slash s.
Proof.
  induction s as [|c s IH]; simpl; [done|].
  destruct (strip_trailing_slash s) as [|d kept] eqn:E.
  - destruct (Ascii.eqb c "/") eqn:Ec; simpl; [done | by rewrite Ec].
  - change (strip_trailing_slash (String c (String d kept)))
      with (match strip_trailing_slash (String d kept) with
            | EmptyString => if Ascii.eqb c "/" then EmptyString else String c EmptyString
            | String a b => String c (String a b)
            end).
    by rewrite IH.
Qed.

Lemma strip_tracking_idem (q : list (string * string)) :
  strip_tracking (strip_tracking q) = strip_tracking q.
Proof.
  unfold strip_tracking. induction q as [|p q IH]; simpl; [done|].
  destruct (negb (is_tracking p)) eqn:E; simpl; [|done]. by rewrite E, IH.
Qed.

(** C6.  Canonicalization is a fixed point: the canonical form of a valid
    URL canonicalizes to itself. *)
Theorem canonicalize_fixed_point (u v : Url) :
  canonicalize u = inr v -> canonicalize v = inr v.
Proof.
  unfold canonicalize. 
  destruct ((String.eqb (lower (scheme u)) "http" || String.eqb (lower (scheme u)) "https") &&
            negb (String.eqb (lower (host u)) "")) eqn:E; [|done].
  intros [= <-]. simpl. rewrite !lower_idem, E.
  by rewrite drop_default_port_idem, strip_trailing_slash_idem, strip_tracking_idem.
Qed.


(** ** Statistics and the item cap *)

Section Coordinator_facts.
Variable normalize : RawRecord -> RejectionError + NormalizedRecord.
Variable lookup_term : TermType -> string -> option string.
Variable now : N.

Local Abbreviation outcome_step := (outcome_step normalize lookup_term).
Local Abbreviation process_record := (process_record normalize lookup_term).
Local Abbreviation drive := (drive normalize lookup_term now).

(** Exactly one of the three outcome counters moves in steps 1 to 3. *)
Lemma outcome_step_job r p :
  exists bump,
    job (outcome_step r p) = with_stats bump (job p) /\
    (bump = count_failure \/ bump = count_duplicate \/ bump = count_success).
Proof.
  unfold outcome_step. destruct (normalize r) as [e|n]; simpl.
  - exists count_failure. auto.
  - destruct (find_by_url _ _); simpl; [exists count_duplicate | exists count_success]; auto.
Qed.

Lemma process_record_job r p :
  total_processed (stats (job (process_record r p))) = S (total_processed (stats (job p))) /\
  max_items (job (process_record r p)) = max_items (job p) /\
  state (job (process_record r p)) = state (job p).
Proof.
  unfold process_record. simpl.
  destruct (outcome_step_job r p) as (bump & -> & [-> | [-> | ->]]); by simpl.
Qed.

Lemma finish_stats to err p : stats (job (finish now to err p)) = stats (job p).
Proof.
  unfold finish, transition. destruct (allowed (state (job p)) to); [|done].
  by destruct to.
Qed.

Lemma drive_at_cap stream p :
  cap_reached p = true -> drive stream p = (finish now Completed None p, stream).
Proof. intros H. destruct stream as [|[r|msg] rest]; simpl; by rewrite H. Qed.

Lemma drive_item r rest p :
  cap_reached p = false -> drive (Item r :: rest) p = drive rest (process_record r p).
Proof. intros H. simpl. by rewrite H. Qed.

Lemma drive_to_cap (items : list RawRecord) : forall (rest : list Pull) (p : Pipe),
  state (job p) = Running ->
  (total_processed (stats (job p)) + length items = max_items (job p))%nat ->
  total_processed (stats (job (fst (drive (map Item items ++ rest) p)))) = max_items (job p) /\
  state (job (fst (drive (map Item items ++ rest) p))) = Completed /\
  snd (drive (map Item items ++ rest) p) = rest.
Proof.
  induction items as [|r items IH]; intros rest p Hrun Hlen; simpl in Hlen.
  - rewrite drive_at_cap by (unfold cap_reached; apply Nat.leb_le; lia).
    simpl. rewrite finish_stats. split; [lia|]. split; [|done].
    unfold finish, transition. by rewrite Hrun.
  - change (map Item (r :: items) ++ rest) with (Item r :: (map Item items ++ rest)).
    rewrite drive_item by (unfold cap_reached; apply Nat.leb_gt; lia).
    destruct (process_record_job r p) as (Ht & Hm & Hs).
    rewrite <- Hm. apply IH; [congruence | rewrite Ht, Hm; lia].
Qed.

Lemma drive_within_cap stream : forall p,
  (total_processed (stats (job p)) <= max_items (job p))%nat ->
  (total_processed (stats (job (fst (drive stream p)))) <= max_items (job p))%nat.
Proof.
  induction stream as [|[r|msg] rest IH]; intros p Hp; simpl;
    destruct (cap_reached p) eqn:E; simpl; rewrite ?finish_stats; try done.
  destruct (process_record_job r p) as (Ht & Hm & _).
  rewrite <- Hm. apply IH. rewrite Ht, Hm.
  unfold cap_reached in E. apply Nat.leb_gt in E. lia.
Qed.

(** C5.  For every cap, 0 included: when the stream yields at least
    [max_items] records, the Job processes exactly [max_items] of them, ends
    [Completed], and the rest of the stream is left unpulled; and whatever
    the stream, [total_processed] never goes beyond the cap. *)
Theorem cap_stops_the_job
    (id spider : string) (cap : nat) (items : list RawRecord) (rest : list Pull)
    (s : Store) (log : list MissingTaxonomyItem) :
  length items = cap ->
  let result := run_job normalize lookup_term now (new_job id spider cap)
                  (map Item items ++ rest) s log in
  total_processed (stats (job (fst result))) = cap /\
  state (job (fst result)) = Completed /\
  snd result = rest /\
  forall stream : list Pull,
    (total_processed
       (stats (job (fst (run_job normalize lookup_term now (new_job id spider cap)
                           stream s log)))) <= cap)%nat.
Proof.
  intros Hlen. unfold run_job. simpl.
  destruct (drive_to_cap items rest
              (mkPipe (mkJob id spider cap Running zero_stats (Some now) None None) s log))
    as (H1 & H2 & H3); [reflexivity | simpl; lia |].
  repeat split; try done.
  intros stream.
  apply (drive_within_cap stream
           (mkPipe (mkJob id spider cap Running zero_stats (Some now) None None) s log)).
  simpl. lia.
Qed.

End Coordinator_facts.

(** ** Re-ingestion *)

Lemma fill_string_absorb (a b c : string) :
  fill_string a c = a -> fill_string (fill_string a b) c = fill_string a b.
Proof.
  unfold fill_string. destruct (String.eqb_spec a "") as [->|Ha].
  - intros ->. by destruct (String.eqb b "") eqn:E; [apply String.eqb_eq in E|].
  - intros _. by destruct (String.eqb_spec a "").
Qed.

Lemma fill_set_absorb (a b c : gset string) :
  fill_set a c = a -> fill_set (fill_set a b) c = fill_set a b.
Proof.
  unfold fill_set. destruct (decide (a = ∅)) as [->|Ha].
  - intros ->. by destruct (decide (b = ∅)).
  - intros _. by destruct (decide (a = ∅)).
Qed.

Lemma fill_option_absorb {A} (a b c : option A) :
  fill_option a c = a -> fill_option (fill_option a b) c = fill_option a b.
Proof. destruct a, b; simpl; congruence. Qed.

Lemma fill_pricing_absorb (a b c : PricingModel) :
  fill_pricing a c = a -> fill_pricing (fill_pricing a b) c = fill_pricing a b.
Proof. destruct a, b; simpl; congruence. Qed.

Lemma fill_string_same (a : string) : fill_string a a = a.
Proof. unfold fill_string. by destruct (String.eqb a ""). Qed.
Lemma fill_set_same (a : gset string) : fill_set a a = a.
Proof. unfold fill_set. by destruct (decide (a = ∅)). Qed.
Lemma fill_option_same {A} (a : option A) : fill_option a a = a.
Proof. by destruct a. Qed.
Lemma fill_pricing_same (a : PricingModel) : fill_pricing a a = a.
Proof. by destruct a. Qed.

Lemma fill_string_twice (a b : string) : fill_string (fill_string a b) b = fill_string a b.
Proof.
  unfold fill_string. destruct (String.eqb a "") eqn:E; [|by rewrite E].
  by destruct (String.eqb b "").
Qed.
Lemma fill_set_twice (a b : gset string) : fill_set (fill_set a b) b = fill_set a b.
Proof.
  unfold fill_set. destruct (decide (a = ∅)) as [->|Ha].
  - by destruct (decide (b = ∅)).
  - by destruct (decide (a = ∅)).
Qed.
Lemma fill_option_twice {A} (a b : option A) : fill_option (fill_option a b) b = fill_option a b.
Proof. by destruct a, b. Qed.
Lemma fill_pricing_twice (a b : PricingModel) :
  fill_pricing (fill_pricing a b) b = fill_pricing a b.
Proof. by destruct a, b. Qed.

Lemma union_absorb (sites : gset string) (a b : string) :
  sites ∪ {[b]} = sites -> sites ∪ {[a]} ∪ {[b]} = sites ∪ {[a]}.
Proof.
  intros H. rewrite <- (assoc_L (∪)), (comm_L (∪) {[a]}), (assoc_L (∪)). by rewrite H.
Qed.

Lemma union_twice (sites : gset string) (a : string) :
  sites ∪ {[a]} ∪ {[a]} = sites ∪ {[a]}.
Proof. by rewrite <- (assoc_L (∪)), union_idemp_L. Qed.

Lemma absorbed_after_merge n cats tgs n' cats' tgs' e :
  absorbed n cats tgs e -> absorbed n cats tgs (merge_fields e n' cats' tgs').
Proof.
  unfold absorbed. destruct e; unfold merge_fields; simpl.
  intros H. injection H as H1 H2 H3 H4 H5 H6 H7 H8 H9 H10.
  f_equal.
  - by apply fill_string_absorb.
  - by apply fill_string_absorb.
  - by apply fill_string_absorb.
  - by apply fill_set_absorb.
  - by apply fill_set_absorb.
  - by apply fill_pricing_absorb.
  - by apply fill_option_absorb.
  - by apply fill_option_absorb.
  - by apply fill_option_absorb.
  - by apply union_absorb.
Qed.

Lemma absorbed_by_merge n cats tgs e : absorbed n cats tgs (merge_fields e n cats tgs).
Proof.
  unfold absorbed. destruct e; unfold merge_fields; simpl.
  f_equal; auto using fill_string_twice, fill_set_twice, fill_option_twice,
    fill_pricing_twice, union_twice.
Qed.

Lemma absorbed_by_insert n cats tgs s e :
  entities (insert_entity n cats tgs s) !! website_url n = Some e -> absorbed n cats tgs e.
Proof.
  unfold insert_entity. simpl. rewrite lookup_insert_eq. intros [= <-].
  unfold absorbed, merge_fields. simpl.
  rewrite !fill_string_same, !fill_set_same, !fill_option_same, fill_pricing_same.
  f_equal. apply union_idemp_L.
Qed.

Section Idempotence.
Variable normalize : RawRecord -> RejectionError + NormalizedRecord.
Variable lookup_term : TermType -> string -> option string.

Local Abbreviation process_record := (process_record normalize lookup_term).
Local Abbreviation resolved_ids := (resolved_ids lookup_term).
Local Abbreviation ingested := (ingested lookup_term).

Lemma resolve_all_ids ty raws seen log :
  fst (resolve_all lookup_term ty raws seen log) = resolved_ids ty raws.
Proof.
  unfold resolved_ids, resolve_all.
  generalize (∅ : gset string) as ids. revert log. generalize (@nil MissingTaxonomyItem).
  induction (elements raws) as [|raw l IH]; intros log0 log ids; simpl; [done|].
  destruct (lookup_term ty raw); simpl; apply IH.
Qed.

Lemma process_record_ingests r n p :
  normalize r = inr n -> ingested n (process_record r p).
Proof.
  intros Hn. unfold ingested, process_record, outcome_step. rewrite Hn. simpl.
  rewrite !resolve_all_ids.
  destruct (find_by_url (website_url n) (store p)) as [e|] eqn:F; simpl.
  - eexists. split; [unfold find_by_url; simpl; apply lookup_insert_eq|].
    apply absorbed_by_merge.
  - eexists. split; [unfold find_by_url; simpl; apply lookup_insert_eq|].
    eapply absorbed_by_insert. unfold insert_entity. simpl. apply lookup_insert_eq.
Qed.

Lemma process_record_keeps_ingested r n p :
  ingested n p -> ingested n (process_record r p).
Proof.
  intros (e & He & Ha). unfold ingested, process_record, outcome_step.
  destruct (normalize r) as [err|n'] eqn:Hn; simpl; [by exists e|].
  rewrite !resolve_all_ids.
  destruct (decide (website_url n' = website_url n)) as [Heq|Hne].
  - rewrite Heq, He. simpl. eexists. split.
    + unfold find_by_url. simpl. rewrite Heq. apply lookup_insert_eq.
    + by apply absorbed_after_merge.
  - destruct (find_by_url (website_url n') (store p)) as [e'|]; simpl;
      exists e; (split; [|done]); unfold find_by_url in *; simpl;
      by rewrite lookup_insert_ne.
Qed.

Lemma rerun_is_noop r n p :
  normalize r = inr n -> ingested n p ->
  store (process_record r p) = store p /\
  stats (job (process_record r p)) =
    count_processed (count_duplicate (stats (job p))).
Proof.
  intros Hn (e & He & Ha). unfold process_record, outcome_step. rewrite Hn. simpl.
  rewrite !resolve_all_ids, He. simpl. split; [|done].
  unfold merge_entity. rewrite Ha. destruct (store p) as [ents nid]; simpl in *.
  f_equal. by apply insert_id.
Qed.

(** C4.  Once a record has been ingested, processing the same record again,
    after any other records, leaves the store as it is (no new Entity, same
    size, the merge changes nothing) and increments [duplicates_skipped] by
    exactly one; the other two outcome counters do not move. *)
Theorem reingestion_is_idempotent
    (r : RawRecord) (n : NormalizedRecord) (between : list RawRecord) (p : Pipe) :
  normalize r = inr n ->
  let before := fold_left (fun q r' => process_record r' q) between
                  (process_record r p) in
  let after := process_record r before in
  store after = store before /\
  size (entities (store after)) = size (entities (store before)) /\
  duplicates_skipped (stats (job after)) = S (duplicates_skipped (stats (job before))) /\
  successful_submissions (stats (job after)) = successful_submissions (stats (job before)) /\
  failed_submissions (stats (job after)) = failed_submissions (stats (job before)).
Proof.
  intros Hn before after.
  assert (Hin : ingested n before).
  { subst before. generalize (process_record_ingests r n p Hn).
    generalize (process_record r p).
    induction between as [|r' l IH]; intros q Hq; simpl; [done|].
    apply IH. by apply process_record_keeps_ingested. }
  destruct (rerun_is_noop r n before Hn Hin) as [Hs Hj].
  subst after. rewrite Hs, Hj. by simpl.
Qed.
End Idempotence.

(** * Scenarios *)

(** Loading the results of one spider leaves those of another in place. *)
Lemma results_fetch_frame_witness :
  let w := with_state (setScrapingResults (fun _ => <["toolify" := JNum 1]> ∅)) blank in
  scrapingResults (ui (exec (fetchScrapingResults None "futuretools") w)) !! "toolify" =
    scrapingResults (ui w) !! "toolify" /\
  scrapingResults
    (ui (exec (fetchScrapingResults_settled "futuretools" (Resolved (JObj ∅))) w))
    !! "toolify" =
    scrapingResults (ui w) !! "toolify".
Proof.
  apply (results_fetch_frame None "futuretools" "toolify" (Resolved (JObj ∅))).
  discriminate.
Defined.


(** A submission while a job runs is refused in a normal response, and the
    button cannot be clicked while the snapshot says so. *)
Lemma job_submission_contract_witness :
  let st := setPipelineStatus snapshot_running initial_state in
  start_scraping 0 "A scraping job is already running" (fun n => "job-" +:+ pretty n)
    [running_job] "toolify" 10 =
    ([running_job],
     Resolved (JObj (<["success" := JBool false]>
                    (<["message" := JStr "A scraping job is already running"]> ∅)))) /\
  start_clickable st = false.
Proof.
  intros st.
  destruct (job_submission_contract None 0 "A scraping job is already running"
              (fun n => "job-" +:+ pretty n)
              (JStr "toolify") (JNum 10) blank blank [running_job] [] "toolify" 10 st)
    as (_ & _ & _ & Hbusy & _ & _ & Hclick).
  - reflexivity.
  - reflexivity.
  - reflexivity.
  - reflexivity.
  - split; [exact Hbusy | exact Hclick].
Defined.

(** [max_items = 2] with a stream of five valid records: two are
    processed, the Job is [Completed], three are left unpulled. *)
Lemma cap_stops_the_job_witness :
  let records := [scenario_record "Tool A" "https://a.example";
                  scenario_record "Tool B" "https://b.example";
                  scenario_record "Tool C" "https://c.example";
                  scenario_record "Tool D" "https://d.example";
                  scenario_record "Tool E" "https://e.example"] in
  let result := run_job scenario_normalize no_taxonomy 0
                  (new_job "job-1" "futuretools" 2) (map Item records) empty_store [] in
  total_processed (stats (job (fst result))) = 2%nat /\
  state (job (fst result)) = Completed /\
  snd result = map Item (skipn 2 records).
Proof.
  destruct (cap_stops_the_job scenario_normalize no_taxonomy 0%N
              "job-1" "futuretools" 2
              [scenario_record "Tool A" "https://a.example";
               scenario_record "Tool B" "https://b.example"]
              (map Item [scenario_record "Tool C" "https://c.example";
                         scenario_record "Tool D" "https://d.example";
                         scenario_record "Tool E" "https://e.example"])
              empty_store [] eq_refl)
    as (H1 & H2 & H3 & _).
  exact (conj H1 (conj H2 H3)).
Defined.

(** Tool A, then Tool B, then Tool A again: the store does not change and
    one duplicate is counted. *)
Lemma reingestion_is_idempotent_witness :
  let r := scenario_record "Tool A" "https://example.com" in
  let p := mkPipe running_job empty_store [] in
  let before :=
    fold_left (fun q r' => process_record scenario_normalize no_taxonomy r' q)
      [scenario_record "Tool B" "https://b.example"]
      (process_record scenario_normalize no_taxonomy r p) in
  let after := process_record scenario_normalize no_taxonomy r before in
  store after = store before /\
  size (entities (store after)) = size (entities (store before)) /\
  duplicates_skipped (stats (job after)) = S (duplicates_skipped (stats (job before))) /\
  successful_submissions (stats (job after)) = successful_submissions (stats (job before)) /\
  failed_submissions (stats (job after)) = failed_submissions (stats (job before)).
Proof.
  apply (reingestion_is_idempotent scenario_normalize no_taxonomy
           (scenario_record "Tool A" "https://example.com")
           (mkNormalized "Tool A" "https://example.com" "" ∅ ∅ Unknown None None None
              "futuretools" 0)
           [scenario_record "Tool B" "https://b.example"]
           (mkPipe running_job empty_store [])).
  reflexivity.
Defined.

(** An upper-case URL with the default port, trailing slashes and a
    tracking parameter, and its canonical form. *)
Lemma canonicalize_fixed_point_witness :
  canonicalize (mkUrl "HTTPS" "Example.COM" (Some 443%N) "/tools//"
                  [("utm_source", "newsletter"); ("q", "ai")] "top") =
    inr (mkUrl "https" "example.com" None "/tools" [("q", "ai")] "top") /\
  canonicalize (mkUrl "https" "example.com" None "/tools" [("q", "ai")] "top") =
    inr (mkUrl "https" "example.com" None "/tools" [("q", "ai")] "top").
Proof.
  split; [reflexivity|].
  apply (canonicalize_fixed_point
           (mkUrl "HTTPS" "Example.COM" (Some 443%N) "/tools//"
              [("utm_source", "newsletter"); ("q", "ai")] "top")).
  reflexivity.
Defined.

(** ** The dashboard at work *)

(** Mounting sends the three initial fetches and registers the interval. *)
Example mount_requests :
  map snd (trace (boot None (fun _ => false))) =
  [Requested 0 (GET "http://localhost:8001/api/spiders");
   Requested 1 (GET "http://localhost:8001/api/status");
   Requested 2 (GET "http://localhost:8001/api/test-services")].
Proof. reflexivity. Qed.

(** Seven seconds later the status has been polled twice, at 3 s and 6 s. *)
Example two_polls_in_seven_seconds :
  let w := N.iter 7000 (fun w => step None (fun _ => false) w Tick) (boot None (fun _ => false)) in
  skipn 3 (trace w) =
  [(3000%N, Requested 3 (GET "http://localhost:8001/api/status"));
   (6000%N, Requested 4 (GET "http://localhost:8001/api/status"))].
Proof. vm_compute. reflexivity. Qed.

(** After unmount the interval is gone. *)
Example no_poll_after_unmount :
  let w := N.iter 7000 (fun w => step None (fun _ => false) w Tick)
             (step None (fun _ => false) (boot None (fun _ => false)) Unmount) in
  length (trace w) = 3%nat /\ timers w = [].
Proof. vm_compute. split; reflexivity. Qed.

(** A session with well-formed payloads, through all five tabs: the page
    stays on screen and keeps polling. *)
Example a_session_across_the_tabs :
  let result :=
    JObj (<["tool_name_on_directory" := JStr "Tool A"]>
         (<["external_website_url" := JStr "https://a.example"]>
         (<["scraped_date" := JStr "2024-05-01T10:00:00"]> ∅))) in
  let w := run None (fun _ => false) (boot None (fun _ => false))
    [Respond 0 (Resolved (JObj (<["spiders" := JArr [JStr "futuretools"; JStr "toolify"]]> ∅)));
     Respond 1 (Resolved snapshot_running);
     Respond 2 (Resolved (JObj (<["taxonomy_service" :=
        JObj (<["status" := JStr "success"]> (<["categories_count" := JNum 12]> ∅))]> ∅)));
     ClickTab "scraping"; ChangeSpider "toolify"; ChangeMaxItems (Some 10%Z);
     ClickTab "results"; ClickLoad 1;
     Respond 3 (Resolved (JObj (<["results_count" := JNum 1]>
                               (<["results" := JArr [result]]> ∅))));
     ClickTab "logs"; ClickRefreshLogs;
     Respond 4 (Resolved (JObj (<["logs" := JArr [JStr "spider opened"]]> ∅)));
     ClickTab "taxonomy"; ClickRefreshTaxonomy;
     Respond 5 (Resolved (JObj (<["missing_items" :=
        JArr [JObj (<["type" := JStr "category"]> (<["name" := JStr "Video"]> ∅))]]> ∅)));
     ClickTab "dashboard"] in
  mounted w = true /\
  dom (scrapingResults (ui w)) = {["toolify"]} /\
  timers w = [poll_timer None 3000] /\
  length (pending w) = 0%nat.
Proof. vm_compute. repeat split; reflexivity. Qed.

(** A status response of [null] breaks the header: the page is gone, and
    with it the interval. *)
Example no_poll_after_a_crash :
  let w := N.iter 7000 (fun w => step None (fun _ => false) w Tick)
             (step None (fun _ => false) (boot None (fun _ => false))
                (Respond 1 (Resolved JNull))) in
  mounted w = false /\ timers w = [] /\ length (trace w) = 3%nat.
Proof. vm_compute. repeat split; reflexivity. Qed.

(** A spiders response without the list is harmless on the dashboard tab
    and breaks the scraping tab once it is opened. *)
Example broken_list_breaks_the_tab :
  let w1 := step None (fun _ => false) (boot None (fun _ => false))
              (Respond 0 (Resolved (JObj ∅))) in
  let w2 := step None (fun _ => false) w1 (ClickTab "scraping") in
  mounted w1 = true /\ spiders (ui w1) = JUndefined /\
  mounted w2 = false /\ timers w2 = [].
Proof. vm_compute. repeat split; reflexivity. Qed.

(** A log line that is an object cannot be shown. *)
Example object_log_line_breaks_the_tab :
  let w := run None (fun _ => false) (boot None (fun _ => false))
             [ClickTab "logs"; ClickRefreshLogs;
              Respond 3 (Resolved (JObj (<["logs" := JArr [JStr "ok"; JObj ∅]]> ∅)))] in
  mounted w = false /\ timers w = [].
Proof. vm_compute. repeat split; reflexivity. Qed.

(** The "Load" button of a spider that is a number asks for its string. *)
Example load_numeric_spider :
  let w := run None (fun _ => false) (boot None (fun _ => false))
             [Respond 0 (Resolved (JObj (<["spiders" := JArr [JStr "toolify"; JNum 7]]> ∅)));
              ClickTab "results"; ClickLoad 1] in
  skipn 3 (map snd (trace w)) =
    [Requested 3 (GET "http://localhost:8001/api/scraping-results/7")] /\
  mounted w = true.
Proof. vm_compute. repeat split; reflexivity. Qed.

(** A job id that cannot be written into the alert: the template literal
    throws, the error alert is shown in its place, and the status is not
    asked for. *)
Example job_id_without_primitive :
  let w := run None (fun _ => false) (boot None (fun _ => false))
             [Respond 0 (Resolved (JObj (<["spiders" := JArr [JStr "futuretools"]]> ∅)));
              ClickTab "scraping";
              ClickStart;
              Respond 3 (Resolved (JObj (<["success" := JBool true]>
                                        (<["job_id" := JObj (<["toString" := JNum 1]> ∅)]> ∅))))] in
  skipn 4 (map snd (trace w)) =
    [Alerted [Lit "Error starting scraping job: ";
              ErrorMessage (NotPrimitive (JObj (<["toString" := JNum 1]> ∅)))]] /\
  loading (ui w) = false /\
  mounted w = true.
Proof. vm_compute. repeat split; reflexivity. Qed.

(** A taxonomy list whose [length] cannot be compared breaks the tab. *)
Example length_without_primitive :
  let w := run None (fun _ => false) (boot None (fun _ => false))
             [ClickTab "taxonomy"; ClickRefreshTaxonomy;
              Respond 3 (Resolved (JObj (<["missing_items" :=
                 JObj (<["length" := JObj (<["toString" := JNum 1]> ∅)]> ∅)]> ∅)))] in
  mounted w = false /\ timers w = [].
Proof. vm_compute. repeat split; reflexivity. Qed.

(** A refused submission: the message is shown and loading is cleared. *)
Example refused_submission :
  let w := run None (fun _ => false) (boot None (fun _ => false))
             [Respond 0 (Resolved (JObj (<["spiders" := JArr [JStr "futuretools"]]> ∅)));
              ClickTab "scraping";
              ClickStart;
              Respond 3 (Resolved (JObj (<["success" := JBool false]>
                                        (<["message" := JStr "busy"]> ∅))))] in
  skipn 4 (map snd (trace w)) =
    [Alerted [Lit "Failed to start scraping: "; Hole (JStr "busy")]] /\
  loading (ui w) = false /\
  selectedSpider (ui w) = JStr "futuretools".
Proof. vm_compute. repeat split; reflexivity. Qed.

(** ** The pipeline at work *)

(** The design document's example URL. *)
Example canonical_example_com :
  canonicalize (mkUrl "https" "Example.com" None "/" [] "") =
  inr (mkUrl "https" "example.com" None "" [] "").
Proof. reflexivity. Qed.

Example ftp_is_rejected :
  canonicalize (mkUrl "ftp" "example.com" None "/" [] "") = inl InvalidURL.
Proof. reflexivity. Qed.

(** The same record twice: one Entity, one success, one duplicate. *)
Example same_record_twice :
  let r := scenario_record "Tool A" "https://example.com" in
  let result := run_job scenario_normalize no_taxonomy 0 (new_job "job-1" "futuretools" 50)
                  [Item r; Item r] empty_store [] in
  stats (job (fst result)) = mkStats 2 1 0 1 /\
  size (entities (store (fst result))) = 1%nat /\
  state (job (fst result)) = Completed.
Proof. vm_compute. repeat split; reflexivity. Qed.

(** A stream that dies after three records: three processed, Job failed. *)
Example stream_dies_after_three :
  let result := run_job scenario_normalize no_taxonomy 0 (new_job "job-1" "futuretools" 50)
                  [Item (scenario_record "Tool A" "https://a.example");
                   Item (scenario_record "Tool B" "https://b.example");
                   Item (scenario_record "Tool C" "https://c.example");
                   StreamError "connection reset";
                   Item (scenario_record "Tool D" "https://d.example")]
                  empty_store [] in
  stats (job (fst result)) = mkStats 3 3 0 0 /\
  state (job (fst result)) = Failed /\
  error (job (fst result)) = Some "connection reset" /\
  snd result = [Item (scenario_record "Tool D" "https://d.example")].
Proof. vm_compute. repeat split; reflexivity. Qed.

(** With a cap of 0 nothing is pulled. *)
Example zero_cap_pulls_nothing :
  let stream := [Item (scenario_record "Tool A" "https://a.example")] in
  let result := run_job scenario_normalize no_taxonomy 0 (new_job "job-1" "futuretools" 0)
                  stream empty_store [] in
  stats (job (fst result)) = zero_stats /\
  state (job (fst result)) = Completed /\
  snd result = stream.
Proof. vm_compute. repeat split; reflexivity. Qed.

(** A record without a URL is rejected and counted as failed. *)
Example rejected_record_is_counted :
  let result := run_job scenario_normalize no_taxonomy 0 (new_job "job-1" "futuretools" 50)
                  [Item (<["name" := "Tool A"]> ∅)] empty_store [] in
  stats (job (fst result)) = mkStats 1 0 1 0.
Proof. reflexivity. Qed.

(** * Further properties of the dashboard *)

(** ** Service titles *)

Ltac all_chars c := destruct c as [[] [] [] [] [] [] [] []].

Lemma upper_char_idem (c : ascii) : upper_char (upper_char c) = upper_char c.
Proof. all_chars c; reflexivity. Qed.

Lemma upper_char_word (c : ascii) : is_word_char (upper_char c) = is_word_char c.
Proof. all_chars c; reflexivity. Qed.

Lemma upper_char_underscore (c : ascii) :
  Ascii.eqb (upper_char c) "_" = Ascii.eqb c "_".
Proof. all_chars c; reflexivity. Qed.

Lemma upper_char_not_lower (c : ascii) : is_lower_char (upper_char c) = false.
Proof. all_chars c; reflexivity. Qed.

Lemma lower_is_word (c : ascii) : is_lower_char c = true -> is_word_char c = true.
Proof. all_chars c; simpl; intros H; first [reflexivity | discriminate H]. Qed.

Lemma length_underscores_to_spaces (s : string) :
  String.length (underscores_to_spaces s) = String.length s.
Proof. induction s as [|c s IH]; simpl; [done | by rewrite IH]. Qed.

Lemma length_capitalize_words (b : bool) (s : string) :
  String.length (capitalize_words b s) = String.length s.
Proof. revert b. induction s as [|c s IH]; intros b; simpl; [done | by rewrite IH]. Qed.

Lemma capitalize_words_idem (s : string) : forall b,
  capitalize_words b (capitalize_words b s) = capitalize_words b s.
Proof.
  induction s as [|c s IH]; intros b; simpl; [done|].
  destruct (is_word_char c && negb b) eqn:E.
  - rewrite upper_char_word, E, upper_char_idem. apply andb_prop in E as [-> _]. by rewrite IH.
  - rewrite E. by rewrite IH.
Qed.

Lemma underscores_to_spaces_idem (s : string) :
  underscores_to_spaces (underscores_to_spaces s) = underscores_to_spaces s.
Proof.
  induction s as [|c s IH]; simpl; [done|]. rewrite IH.
  by destruct (Ascii.eqb c "_") eqn:E; [|rewrite E].
Qed.

Lemma capitalize_words_keeps_clean (s : string) : forall b,
  underscores_to_spaces s = s ->
  underscores_to_spaces (capitalize_words b s) = capitalize_words b s.
Proof.
  induction s as [|c s IH]; intros b; simpl; [done|].
  intros [= Hc Hs]. rewrite (IH _ Hs).
  assert (Ec : Ascii.eqb c "_" = false).
  { destruct (Ascii.eqb c "_") eqn:E; [|done]. apply Ascii.eqb_eq in E. by subst. }
  destruct (is_word_char c && negb b); [by rewrite upper_char_underscore, Ec | by rewrite Ec].
Qed.

(** X1.  Titling a service name twice gives the same title as once, and the
    title has as many characters as the name. *)
Theorem service_title_is_stable (service : string) :
  service_title (service_title service) = service_title service /\
  String.length (service_title service) = String.length service.
Proof.
  unfold service_title. split.
  - rewrite capitalize_words_keeps_clean by apply underscores_to_spaces_idem.
    apply capitalize_words_idem.
  - by rewrite length_capitalize_words, length_underscores_to_spaces.
Qed.

Lemma no_underscore_left (s : string) :
  underscores_to_spaces s = s -> ~ In "_"%char (list_ascii_of_string s).
Proof.
  induction s as [|c s IH]; simpl; [tauto|].
  intros [= Hc Hs] [Heq | Hin]; [subst c; discriminate Hc | by apply IH].
Qed.

Lemma word_starts (s : string) : forall b i c,
  String.get i (capitalize_words b s) = Some c ->
  is_lower_char c = true ->
  match i with
  | O => b = true
  | S j => exists p, String.get j (capitalize_words b s) = Some p /\ is_word_char p = true
  end.
Proof.
  induction s as [|x s IH]; intros b i c; simpl; [by destruct i|].
  destruct i as [|j].
  - intros [= <-] Hl. destruct (is_word_char x && negb b) eqn:E.
    + by rewrite upper_char_not_lower in Hl.
    + rewrite (lower_is_word _ Hl) in E. by destruct b.
  - intros Hg Hl. specialize (IH _ _ _ Hg Hl). destruct j as [|k].
    + eexists. split; [reflexivity|].
      destruct (is_word_char x && negb b); [by rewrite upper_char_word | done].
    + exact IH.
Qed.

(** X2.  A service title holds no underscore, and a lower-case letter in it
    never starts a word: it always follows a word character. *)
Theorem service_title_shape (service : string) (i : nat) (c : ascii) :
  (~ In "_"%char (list_ascii_of_string (service_title service))) /\
  (String.get i (service_title service) = Some c ->
   is_lower_char c = true ->
   exists j p, i = S j /\ String.get j (service_title service) = Some p /\
               is_word_char p = true).
Proof.
  split.
  - apply no_underscore_left. unfold service_title.
    apply capitalize_words_keeps_clean, underscores_to_spaces_idem.
  - intros Hg Hl. pose proof (word_starts _ _ _ _ Hg Hl) as H.
    destruct i as [|j]; [discriminate H|]. destruct H as (p & Hp & Hw). by exists j, p.
Qed.

(** ** Service cards *)

(** X4.  For a service whose status is an object with a numeric
    [categories_count], the card has the "Categories:" line when the count
    is not 0; a count of 0 is handed to React as the bare number in place
    of the line. *)
Theorem service_card_count_line (title : string) (status : JVal) (n : Z) :
  nullish status = false ->
  lookup_prop status "categories_count" = JNum n ->
  exists heading indicator error tags features,
    ServiceStatusCard title status =
    inr (Elem "div"
           [("className", JStr "bg-white p-4 rounded-lg shadow-md border-l-4 border-blue-500")]
           [heading; indicator; error;
            (if (n =? 0)%Z then Expr (JNum 0) else categories_line (JNum n));
            tags; features]).
Proof.
  intros Hs Hn. unfold ServiceStatusCard, member, card_children. rewrite Hs, Hn.
  do 5 eexists. f_equal. f_equal. f_equal. f_equal. f_equal. f_equal.
  unfold when_truthy. simpl. destruct (Z.eqb_spec n 0) as [->|]; reflexivity.
Qed.

(** ** Lists on the page *)

Lemma collect_all {E A : Type} (l : list A) : collect (map (@inr E A) l) = inr l.
Proof. induction l as [|a l IH]; simpl; [done | by rewrite IH]. Qed.

Lemma imap_inr {E A B : Type} (f : nat -> A -> B) (l : list A) :
  imap (fun i a => @inr E B (f i a)) l = map inr (imap f l).
Proof.
  revert f. induction l as [|a l IH]; intros f; simpl; [done|]. f_equal. apply IH.
Qed.

Lemma imap_ignoring_index {A B : Type} (f : A -> B) (l : list A) :
  imap (fun _ x => f x) l = map f l.
Proof. induction l as [|a l IH]; simpl; [done|]. f_equal. exact IH. Qed.

Lemma js_map_total {A : Type} (f : nat -> JVal -> A) (v : JVal) :
  js_map (fun i x => inr (f i x)) v =
  match v with
  | JArr items => inr (imap f items)
  | JUndefined | JNull => inl (PropertyRead (TypeError v "map"))
  | _ => inl (NotAFunction v "map")
  end.
Proof. destruct v; simpl; try done. by rewrite imap_inr, collect_all. Qed.

Section Fetched_lists.
Variable env : option string.
Variable gz : JVal -> bool.



Lemma collect_rows (items : list JVal) : forall k,
  Forall (fun item => nullish item = false) items ->
  exists rows, collect (imap (fun i => taxonomy_row (k + i)) items) = inr rows /\
               length rows = length items.
Proof.
  induction items as [|item items IH]; intros k Hall; simpl; [by exists []|].
  inversion Hall as [|? ? Hi Hrest]; subst.
  unfold taxonomy_row at 1. unfold member. rewrite Hi.
  destruct (IH (S k) Hrest) as (rows & Hrows & Hlen).
  assert (Heq : imap ((fun i => taxonomy_row (k + i)) ∘ S) items =
                imap (fun i => taxonomy_row (S k + i)) items).
  { apply imap_ext. intros i x _. simpl. f_equal. lia. }
  rewrite Heq, Hrows. eexists. split; [reflexivity|]. simpl. by rewrite Hlen.
Qed.

Lemma taxonomy_rows (items : list JVal) :
  Forall (fun item => nullish item = false) items ->
  exists rows, collect (imap taxonomy_row items) = inr rows /\ length rows = length items.
Proof.
  intros Hall. destruct (collect_rows items 0 Hall) as (rows & Hrows & Hlen).
  exists rows. split; [|done]. rewrite <- Hrows. f_equal.
Qed.

(** X6.  For an array of items (none of them [null]), the taxonomy tab shows
    the "No missing taxonomy items found." line when the array is empty, and
    otherwise one row per item. *)
Theorem taxonomy_tab_lists_every_item (items : list JVal) :
  Forall (fun item => nullish item = false) items ->
  match items with
  | [] => taxonomy_view gz (JArr items) = inr no_missing_items
  | _ :: _ =>
      exists rows,
        taxonomy_view gz (JArr items) =
          inr (Elem "div" [("className", JStr "max-h-64 overflow-y-auto")] rows) /\
        length rows = length items
  end.
Proof.
  intros Hall. destruct items as [|item rest]; [reflexivity|].
  unfold taxonomy_view. simpl member. cbv iota.
  change (gt_zero gz (lookup_prop (JArr (item :: rest)) "length")) with
    (0 <? Z.of_nat (length (item :: rest)))%Z.
  replace (0 <? Z.of_nat (length (item :: rest)))%Z with true
    by (symmetry; apply Z.ltb_lt; simpl; lia).
  destruct (taxonomy_rows (item :: rest) Hall) as (rows & Hrows & Hlen).
  unfold js_map. rewrite Hrows. by exists rows.
Qed.


End Fetched_lists.

(** ** Settled requests *)

(** The loading flag changes the label and the [disabled] prop of the submit
    button, and nothing a render could throw on. *)
Lemma crashes_loading (gz : JVal -> bool) (b : bool) (st : AppState) :
  crashes gz (setLoading b st) = crashes gz st.
Proof.
  unfold crashes, scraping_crashes, start_button, start_disabled. simpl.
  by destruct (member (pipelineStatus st) "is_running").
Qed.

Section Settling.
Variable env : option string.
Variable gz : JVal -> bool.

(** X8.  When the spiders response carries an array, the list is stored, the
    select shows one option per spider, and the first spider becomes the
    selected one; an empty array leaves the selection as it was. *)
Theorem spiders_response_selects_first (data : JVal) (names : list JVal) (w : World) :
  mounted w = true ->
  nullish data = false ->
  lookup_prop data "spiders" = JArr names ->
  let w' := exec (fetchSpiders_settled gz (Resolved data)) w in
  spiders (ui w') = JArr names /\
  selectedSpider (ui w') = match names with
                           | [] => selectedSpider (ui w)
                           | first :: _ => first
                           end /\
  spider_options (spiders (ui w')) = inr (map spider_option names) /\
  trace w' = trace w.
Proof.
  intros Hm Hd Hs.
  assert (Ho : spider_options (JArr names) = inr (map spider_option names)).
  { unfold spider_options. rewrite js_map_total. f_equal. apply imap_ignoring_index. }
  simpl. unfold attempt, member. rewrite Hd, Hs. simpl.
  destruct names as [|first rest]; simpl; rewrite Hm; simpl; [done|].
  replace (0 <? Z.pos (Pos.of_succ_nat (length rest)))%Z with true by done.
  simpl. rewrite Hm. simpl. repeat split. exact Ho.
Qed.


(** X10.  A resolved results fetch stores its payload under the spider's
    name; a second response for the same spider replaces the first, as if
    only the second had arrived. *)
Theorem results_last_response_wins (s : string) (first second : JVal) (w : World) :
  mounted w = true ->
  let w1 := exec (fetchScrapingResults_settled s (Resolved first)) w in
  let w2 := exec (fetchScrapingResults_settled s (Resolved second)) w1 in
  scrapingResults (ui w1) !! s = Some first /\
  scrapingResults (ui w2) !! s = Some second /\
  ui w2 = ui (exec (fetchScrapingResults_settled s (Resolved second)) w).
Proof.
  intros Hm. simpl. rewrite Hm. simpl. rewrite Hm. simpl.
  split; [apply lookup_insert_eq|]. split; [apply lookup_insert_eq|].
  unfold setScrapingResults. simpl. f_equal. apply insert_insert_eq.
Qed.

(** X11.  Results responses for two different spiders: in whichever order
    they settle, the results stored under every key are the same, and so is
    every other state variable.  (The order in which the results tab lists
    the sections is not part of this statement.) *)
Theorem results_of_different_spiders_commute
    (s1 s2 : string) (r1 r2 : Response) (w : World) :
  s1 <> s2 ->
  let w12 := exec (fetchScrapingResults_settled s2 r2)
               (exec (fetchScrapingResults_settled s1 r1) w) in
  let w21 := exec (fetchScrapingResults_settled s1 r1)
               (exec (fetchScrapingResults_settled s2 r2) w) in
  (forall key : string,
     scrapingResults (ui w12) !! key = scrapingResults (ui w21) !! key) /\
  setScrapingResults (fun _ => ∅) (ui w12) = setScrapingResults (fun _ => ∅) (ui w21).
Proof.
  intros Hne w12 w21.
  assert (Heq : ui w12 = ui w21).
  { subst w12 w21. destruct (mounted w) eqn:Hm;
      destruct r1 as [d1|m1], r2 as [d2|m2]; simpl; rewrite ?Hm; simpl; rewrite ?Hm; try done.
    unfold setScrapingResults. simpl. f_equal. by apply insert_insert_ne. }
  by rewrite Heq.
Qed.

(** X12.  However the submission settles (started, refused, malformed
    payload, rejected request), the operator gets exactly one alert, the
    loading flag is cleared, and nothing else of the state changes. *)
Theorem submission_always_ends (r : Response) (w : World) :
  mounted w = true ->
  let w' := exec (startScrapingJob_settled env r) w in
  ui w' = setLoading false (ui w) /\
  exists msg,
    trace w' =
      trace w ++ (clock w, Alerted msg) ::
        (if succeeded r
         then [(clock w, Requested (next_ticket w) (GET (API_BASE_URL env +:+ "/api/status")))]
         else []).
Proof.
  intros Hm. destruct r as [data|message]; simpl.
  - unfold attempt, member. destruct (nullish data) eqn:Hd; simpl.
    + rewrite Hm. simpl. split; [done|]. eauto.
    + unfold interpolate.
      destruct (truthy (lookup_prop data "success")); simpl;
        [destruct (no_primitive (lookup_prop data "job_id"))
        |destruct (no_primitive (lookup_prop data "message"))];
        simpl; rewrite ?Hm; simpl; rewrite ?Hm; simpl; (split; [done|]);
        eexists; rewrite <- ?app_assoc; reflexivity.
  - rewrite Hm. simpl. split; [done|]. eauto.
Qed.

(** X13.  A settled submission asks for the status again exactly when it
    started a job ([success] is truthy and the job id could be shown), and
    sends nothing otherwise. *)
Theorem status_refresh_only_after_success (r : Response) (w : World) :
  pending (exec (startScrapingJob_settled env r) w) =
  pending w ++
  (if succeeded r
   then [mkInFlight (next_ticket w) (GET (API_BASE_URL env +:+ "/api/status"))
           fetchPipelineStatus_settled]
   else []).
Proof.
  destruct r as [data|message]; simpl.
  - unfold attempt, member. destruct (nullish data) eqn:Hd; simpl.
    + destruct (mounted w); simpl; by rewrite app_nil_r.
    + unfold interpolate.
      destruct (truthy (lookup_prop data "success")); simpl;
        [destruct (no_primitive (lookup_prop data "job_id"))
        |destruct (no_primitive (lookup_prop data "message"))];
        simpl; destruct (mounted w); simpl; by rewrite ?app_nil_r.
  - destruct (mounted w); simpl; by rewrite app_nil_r.
Qed.

(** X14.  On a page that is on screen with the submit button enabled, the
    submission carries the spider chosen last and the value [parseInt] gave
    for the max-items field, [NaN] included: the handler checks no range. *)
Theorem submission_sends_what_was_typed
    (value : string) (parsed : option Z) (w : World) :
  mounted w = true ->
  crashes gz (ui w) = false ->
  start_clickable (ui w) = true ->
  value <> "" ->
  let w' := run env gz w [ChangeSpider value; ChangeMaxItems parsed; ClickStart] in
  pending w' =
    pending w ++
    [mkInFlight (next_ticket w)
       (POST (API_BASE_URL env +:+ "/api/start-scraping")
             (start_body (JStr value)
                (match parsed with Some n => JNum n | None => JNaN end)))
       (startScrapingJob_settled env)] /\
  loading (ui w') = true.
Proof.
  intros Hm Hok Hc Hv.
  assert (Htab : String.eqb (activeTab (ui w)) "scraping" = true).
  { unfold start_clickable in Hc. by apply andb_prop in Hc as [-> _]. }
  assert (Ht : truthy (JStr value) = true).
  { simpl. destruct (String.eqb_spec value ""); [done | reflexivity]. }
  set (picked := match parsed with Some n => JNum n | None => JNaN end).
  set (w1 := with_state (setSelectedSpider (JStr value)) w).
  set (w2 := with_state (setMaxItems picked) w1).
  set (w3 := exec (startScrapingJob env (JStr value) picked) w2).
  assert (Hstay : forall v : World, mounted v = true -> crashes gz (ui v) = false ->
                                    settle gz v = v).
  { intros v Hv1 Hv2. unfold settle. by rewrite Hv1, Hv2. }
  assert (H1 : step env gz w (ChangeSpider value) = w1).
  { unfold step. simpl. rewrite Hm, Htab. simpl. by apply Hstay. }
  assert (H2 : step env gz w1 (ChangeMaxItems parsed) = w2).
  { unfold step. simpl. rewrite Hm, Htab. simpl. by apply Hstay. }
  assert (Hw3 : w3 = send (POST (API_BASE_URL env +:+ "/api/start-scraping")
                             (start_body (JStr value) picked))
                       (startScrapingJob_settled env) (with_state (setLoading true) w2)).
  { subst w3. unfold startScrapingJob. rewrite Ht. simpl.
    change (mounted w2) with (mounted w). by rewrite Hm. }
  assert (H3 : step env gz w2 ClickStart = w3).
  { assert (Hh : handle env w2 ClickStart = w3).
    { unfold handle. change (mounted w2) with (mounted w). rewrite Hm. simpl negb. cbv iota.
      change (start_clickable (ui w2)) with (start_clickable (ui w)). by rewrite Hc. }
    unfold step. rewrite Hh. apply Hstay; rewrite Hw3; simpl; [exact Hm|].
    rewrite crashes_loading. exact Hok. }
  unfold run. cbn [fold_left]. rewrite H1, H2, H3, Hw3. by simpl.
Qed.

(** X15.  With no submission loading, the header badge, the "Job is currently
    running" notice and the disabled submit button all follow the
    truthiness of [is_running]: they show, or not, together. *)
Theorem running_views_agree (st : AppState) :
  nullish (pipelineStatus st) = false ->
  loading st = false ->
  let is_running := lookup_prop (pipelineStatus st) "is_running" in
  start_disabled st = inr is_running /\
  (truthy is_running = true <->
   running_notice (pipelineStatus st) =
     inr (notice_box (lookup_prop (pipelineStatus st) "current_job"))) /\
  (truthy is_running = true <-> running_indicator (pipelineStatus st) = inr running_badge) /\
  (truthy is_running = true <-> start_clickable (setActiveTab "scraping" st) = false).
Proof.
  intros Hn Hl is_running.
  unfold start_disabled, running_notice, running_indicator, start_clickable, start_disabled,
    member. simpl. rewrite Hn, Hl. fold is_running. unfold js_or, when_truthy. simpl.
  split; [done|].
  destruct (truthy is_running) eqn:E; repeat split; try done; intros [=].
  all: rewrite <- ?H0 in E; try discriminate E.
Qed.

End Settling.

(** ** What a step can change *)

Lemma requests_of_app (a b : list (N * Event)) :
  requests_of (a ++ b) = requests_of a ++ requests_of b.
Proof. apply omap_app. Qed.

Lemma changes_refl U Rq w : changes U Rq w w.
Proof. exists [], []. repeat split; try done. by rewrite app_nil_r. Qed.

Lemma changes_trans U Rq w1 w2 w3 :
  changes U Rq w1 w2 -> changes U Rq w2 w3 -> changes U Rq w1 w3.
Proof.
  intros (f1 & s1 & Hf1 & Hu1 & Hs1 & Ht1) (f2 & s2 & Hf2 & Hu2 & Hs2 & Ht2).
  exists (f1 ++ f2), (s1 ++ s2). split; [by apply Forall_app|].
  split; [by rewrite fold_left_app, <- Hu1|].
  split; [by apply Forall_app|]. by rewrite Ht2, Ht1, app_assoc.
Qed.

Lemma changes_same U Rq w w' :
  ui w' = ui w -> trace w' = trace w -> changes U Rq w w'.
Proof. intros Hu Ht. exists [], []. rewrite Hu, Ht, app_nil_r. by repeat split. Qed.

Lemma exec_does U Rq p : does U Rq p -> forall w, changes U Rq w (exec p w).
Proof.
  induction 1; intros w; simpl.
  - apply changes_refl.
  - eapply changes_trans; [|apply IHdoes].
    destruct (mounted w); [|apply changes_refl].
    exists [f], []. repeat split; try done; [by constructor | by rewrite app_nil_r].
  - eapply changes_trans; [|apply IHdoes].
    exists [], []. simpl. rewrite requests_of_app, !app_nil_r. by repeat split.
  - eapply changes_trans; [|apply IHdoes].
    exists [], []. simpl. rewrite requests_of_app, !app_nil_r. by repeat split.
  - exists [], [r]. simpl. rewrite requests_of_app. repeat split; try done. by constructor.
  - eapply changes_trans; [apply IHdoes1 | apply IHdoes2].
Qed.

Lemma exec_does_pending U Rq p : does U Rq p -> forall w,
  exists extra, pending (exec p w) = pending w ++ extra /\
                Forall (fun e => Rq (request e)) extra.
Proof.
  induction 1; intros w; simpl.
  - exists []. by rewrite app_nil_r.
  - destruct (IHdoes (if mounted w then with_state f w else w)) as (extra & -> & He).
    exists extra. by destruct (mounted w).
  - destruct (IHdoes (emit (Alerted msg) w)) as (extra & -> & He). by exists extra.
  - destruct (IHdoes (emit (Logged label e) w)) as (extra & -> & He). by exists extra.
  - eexists. split; [reflexivity|]. by repeat constructor.
  - destruct (IHdoes1 w) as (e1 & H1 & He1). destruct (IHdoes2 (exec p w)) as (e2 & H2 & He2).
    exists (e1 ++ e2). split; [by rewrite H2, H1, app_assoc | by apply Forall_app].
Qed.

Lemma does_weaken (U U' : (AppState -> AppState) -> Prop) (Rq Rq' : Request -> Prop) p :
  (forall f, U f -> U' f) -> (forall r, Rq r -> Rq' r) -> does U Rq p -> does U' Rq' p.
Proof. intros HU HR. induction 1; constructor; auto. Qed.

(** Walks through the branches of a handler; [side] settles that an update
    is allowed. *)
Ltac does_cases side :=
  repeat match goal with
  | |- does _ _ (match ?x with _ => _ end) => destruct x
  | |- does _ _ (if ?x then _ else _) => destruct x
  | |- does _ _ (attempt _ _ _) => unfold attempt
  | |- does _ _ Done => constructor
  | |- does _ _ (SetState _ _) => constructor; [side |]
  | |- does _ _ (AlertBox _ _) => constructor
  | |- does _ _ (ConsoleError _ _ _) => constructor
  | |- does _ _ (Call _ _) => constructor
  | |- does _ _ (Await _ _) => constructor
  | |- does _ _ _ => progress simpl
  end.

Section Steps.
Variable env : option string.
Variable gz : JVal -> bool.

Local Abbreviation world_ok := (world_ok env gz).
Local Abbreviation later_request := (later_request env).

Lemma fetchPipelineStatus_does U :
  does U later_request (fetchPipelineStatus env).
Proof. constructor. constructor. Qed.

Lemma fetch_settled_does i f r : does (page_update i) (fun _ => False) (fetch_settled gz f r).
Proof. destruct f, r; does_cases ltac:(by constructor). Qed.

Lemma fetch_settled_keeps_loading f r :
  does (fun f => forall st, loading (f st) = loading st) (fun _ => False)
    (fetch_settled gz f r).
Proof. destruct f, r; does_cases ltac:(by intros ?). Qed.

Lemma start_settled_does i r :
  does (page_update i) later_request (startScrapingJob_settled env r).
Proof. destruct r; does_cases ltac:(by constructor); repeat constructor. Qed.

Lemma startScrapingJob_does i sp n :
  does (page_update i) later_request (startScrapingJob env sp n).
Proof. unfold startScrapingJob. does_cases ltac:(by constructor). constructor. Qed.

Lemma handle_changes w i :
  world_ok w -> changes (page_update i) later_request w (handle env w i).
Proof.
  intros Hw. destruct i; simpl.
  - destruct Hw as [_ Hw]. destruct (mounted w) eqn:E.
    + destruct Hw as [_ (q & Ht & Hq)]. rewrite (tick_mounted env w q E Ht Hq).
      destruct (clock w + 1 =? 3000 * (q + 1))%N; [|by apply changes_same].
      exists [], [GET (API_BASE_URL env +:+ "/api/status")]. simpl.
      rewrite requests_of_app. repeat split; try done; repeat constructor.
    + destruct Hw as [_ Ht]. unfold tick. simpl. rewrite Ht. by apply changes_same.
  - unfold respond.
    destruct (take_pending id (pending w)) as [[p rest]|] eqn:T; [|apply changes_refl].
    destruct (take_pending_spec _ _ _ _ T) as (_ & Hin & _).
    destruct Hw as [Hp _]. rewrite Forall_forall in Hp.
    apply (changes_trans _ _ w (with_pending rest w)); [by apply changes_same|].
    destruct (Hp p ltac:(by apply list_elem_of_In)) as [k f | k body]; simpl.
    + apply exec_does.
      eapply does_weaken; [| |apply (fetch_settled_does (Respond id r))]; [done | by intros ? []].
    + apply exec_does, start_settled_does.
  - destruct (mounted w); simpl; [|apply changes_refl].
    destruct (start_clickable (ui w)); [|apply changes_refl].
    apply exec_does, startScrapingJob_does.
  - destruct (mounted w); simpl; [|apply changes_refl].
    destruct (load_target index (ui w)) as [spider|]; [|apply changes_refl].
    exists [], [GET (API_BASE_URL env +:+ "/api/scraping-results/" +:+ to_string spider)].
    simpl.
    rewrite requests_of_app. repeat split; try done; repeat constructor.
  - destruct (mounted w); simpl; [|apply changes_refl].
    destruct (String.eqb (activeTab (ui w)) "logs"); [|apply changes_refl].
    exists [], [GET (API_BASE_URL env +:+ "/api/logs?lines=100")]. simpl.
    rewrite requests_of_app. repeat split; try done; repeat constructor.
  - destruct (mounted w); simpl; [|apply changes_refl].
    destruct (String.eqb (activeTab (ui w)) "taxonomy"); [|apply changes_refl].
    exists [], [GET (API_BASE_URL env +:+ "/api/missing-taxonomy")]. simpl.
    rewrite requests_of_app. repeat split; try done; repeat constructor.
  - destruct (mounted w); simpl; [|apply changes_refl].
    exists [setActiveTab tab], []. simpl. rewrite app_nil_r.
    repeat split; try done; repeat constructor; by apply update_tab.
  - destruct (mounted w); simpl; [|apply changes_refl].
    destruct (String.eqb (activeTab (ui w)) "scraping"); [|apply changes_refl].
    exists [setSelectedSpider (JStr value)], []. simpl. rewrite app_nil_r.
    repeat split; try done; repeat constructor; by apply update_choice.
  - destruct (mounted w); simpl; [|apply changes_refl].
    destruct (String.eqb (activeTab (ui w)) "scraping"); [|apply changes_refl].
    eexists [_], []. simpl. rewrite app_nil_r.
    repeat split; try done; repeat constructor; by apply update_max.
  - destruct (mounted w) eqn:E; [|apply changes_refl].
    destruct Hw as [_ Hw]. rewrite E in Hw. destruct Hw as [Hc _].
    apply changes_same; unfold unmount; by rewrite Hc.
Qed.

(** The render after an input, also one that throws, changes neither the
    state nor the trace. *)
Lemma step_changes w i :
  world_ok w -> changes (page_update i) later_request w (step env gz w i).
Proof.
  intros Hw. destruct (step_quiet env gz w i Hw) as (Hu & Ht & _).
  destruct (handle_changes w i Hw) as (updates & sent & H1 & H2 & H3 & H4).
  exists updates, sent. by rewrite Hu, Ht.
Qed.


(** *** Results are never dropped *)

Lemma page_update_keeps_results i f st :
  page_update i f -> dom (scrapingResults st) ⊆ dom (scrapingResults (f st)).
Proof.
  destruct 1; simpl; try done. rewrite dom_insert. set_solver.
Qed.

Lemma updates_keep_results i updates : forall st,
  Forall (page_update i) updates ->
  dom (scrapingResults st) ⊆ dom (scrapingResults (fold_left (fun st f => f st) updates st)).
Proof.
  induction updates as [|f fs IH]; intros st Hall; simpl; [done|].
  inversion Hall; subst. etrans; [by apply (page_update_keeps_results i f)|]. by apply IH.
Qed.

Lemma run_keeps_results more : forall w,
  world_ok w ->
  dom (scrapingResults (ui w)) ⊆ dom (scrapingResults (ui (run env gz w more))).
Proof.
  induction more as [|i more IH]; intros w Hw; [done|].
  change (run env gz w (i :: more)) with (run env gz (step env gz w i) more).
  etrans; [|apply IH, step_ok, Hw].
  destruct (step_changes w i Hw) as (updates & sent & Hu & -> & _).
  by apply (updates_keep_results i).
Qed.

(** X16.  In every run of the page, a spider whose results have been loaded
    keeps an entry: no input ever removes one. *)
Theorem loaded_results_stay (inputs more : list Input) :
  dom (scrapingResults (ui (run env gz (boot env gz) inputs))) ⊆
  dom (scrapingResults (ui (run env gz (boot env gz) (inputs ++ more)))).
Proof.
  unfold run at 2. rewrite fold_left_app. apply run_keeps_results, run_ok, boot_ok.
Qed.

(** *** The active tab *)

Lemma page_update_keeps_tab i f st :
  from_the_page i -> page_update i f -> In (activeTab st) tabs -> In (activeTab (f st)) tabs.
Proof. intros Hi. destruct 1; simpl; try done. by subst i. Qed.

Lemma run_keeps_tab inputs : forall w,
  world_ok w -> Forall from_the_page inputs ->
  In (activeTab (ui w)) tabs -> In (activeTab (ui (run env gz w inputs))) tabs.
Proof.
  induction inputs as [|i inputs IH]; intros w Hw Hall Ht; [done|].
  change (run env gz w (i :: inputs)) with (run env gz (step env gz w i) inputs).
  inversion Hall as [|? ? Hi Hrest]; subst.
  apply IH; [by apply step_ok | done |].
  destruct (step_changes w i Hw) as (updates & sent & Hu & -> & _).
  clear Hw. revert Hu Ht. generalize (ui w).
  induction updates as [|f fs IHf]; intros st Hu Ht; simpl; [done|].
  inversion Hu; subst. apply IHf; [done|]. by apply (page_update_keeps_tab i).
Qed.

Lemma one_tab_highlighted (st : AppState) :
  In (activeTab st) tabs ->
  exists before after,
    tabs = before ++ activeTab st :: after /\
    nav st = map (tab_button false) before ++ tab_button true (activeTab st) ::
             map (tab_button false) after.
Proof.
  unfold nav. generalize (activeTab st). intros tab Hin. simpl in Hin.
  destruct Hin as [<- | [<- | [<- | [<- | [<- | []]]]]].
  - by exists [], ["scraping"; "results"; "logs"; "taxonomy"].
  - by exists ["dashboard"], ["results"; "logs"; "taxonomy"].
  - by exists ["dashboard"; "scraping"], ["logs"; "taxonomy"].
  - by exists ["dashboard"; "scraping"; "results"], ["taxonomy"].
  - by exists ["dashboard"; "scraping"; "results"; "logs"], [].
Qed.

(** X17.  In every run driven by the page's own controls, the active tab is
    one of the five and exactly its button is highlighted. *)
Theorem exactly_one_tab_is_highlighted (inputs : list Input) :
  Forall from_the_page inputs ->
  let st := ui (run env gz (boot env gz) inputs) in
  exists before after,
    tabs = before ++ activeTab st :: after /\
    nav st = map (tab_button false) before ++ tab_button true (activeTab st) ::
             map (tab_button false) after.
Proof.
  intros Hall st. apply one_tab_highlighted.
  apply run_keeps_tab; [apply boot_ok | done | by left].
Qed.

(** *** Fetched once *)

Lemma eqb_common_prefix (p a b : string) : String.eqb (p +:+ a) (p +:+ b) = String.eqb a b.
Proof.
  induction p as [|c p IH]; simpl; [done|]. by rewrite Ascii.eqb_refl.
Qed.

Lemma later_request_not_initial (r : Request) :
  later_request r ->
  is_get (API_BASE_URL env +:+ "/api/spiders") r = false /\
  is_get (API_BASE_URL env +:+ "/api/test-services") r = false.
Proof. destruct 1; simpl; rewrite ?eqb_common_prefix; done. Qed.

Lemma filter_no_match {A : Type} (f : A -> bool) (l : list A) :
  Forall (fun x => f x = false) l -> List.filter f l = [].
Proof. induction 1 as [|x l Hx _ IH]; simpl; [done | by rewrite Hx]. Qed.

Lemma run_sends_no_initial_request inputs : forall w url,
  world_ok w ->
  (forall r, later_request r -> is_get url r = false) ->
  List.filter (is_get url) (requests_of (trace (run env gz w inputs))) =
  List.filter (is_get url) (requests_of (trace w)).
Proof.
  induction inputs as [|i inputs IH]; intros w url Hw Hurl; [done|].
  change (run env gz w (i :: inputs)) with (run env gz (step env gz w i) inputs).
  rewrite IH by (by try apply step_ok).
  destruct (step_changes w i Hw) as (updates & sent & _ & _ & Hs & ->).
  rewrite List.filter_app, (filter_no_match _ sent), app_nil_r; [done|].
  eapply Forall_impl; [exact Hs | exact Hurl].
Qed.

(** X18.  In every run of the page, the spider list and the service health
    are requested exactly once, at mount; no later input asks for them
    again. *)
Theorem lists_are_fetched_once (inputs : list Input) :
  let sent := requests_of (trace (run env gz (boot env gz) inputs)) in
  List.filter (is_get (API_BASE_URL env +:+ "/api/spiders")) sent =
    [GET (API_BASE_URL env +:+ "/api/spiders")] /\
  List.filter (is_get (API_BASE_URL env +:+ "/api/test-services")) sent =
    [GET (API_BASE_URL env +:+ "/api/test-services")].
Proof.
  simpl. split.
  - rewrite run_sends_no_initial_request;
      [| apply boot_ok | intros r Hr; apply (later_request_not_initial r Hr)].
    simpl. by rewrite String.eqb_refl, !eqb_common_prefix.
  - rewrite run_sends_no_initial_request;
      [| apply boot_ok | intros r Hr; apply (later_request_not_initial r Hr)].
    simpl. by rewrite String.eqb_refl, !eqb_common_prefix.
Qed.

(** *** One submission at a time *)

Lemma count_submissions_app (a b : list InFlight) :
  count_submissions (a ++ b) = (count_submissions a + count_submissions b)%nat.
Proof. unfold count_submissions. by rewrite List.filter_app, length_app. Qed.

Lemma take_pending_count id l p rest :
  take_pending id l = Some (p, rest) ->
  count_submissions l =
  (count_submissions rest + if is_submission p then 1 else 0)%nat.
Proof.
  revert p rest. induction l as [|x l IH]; intros p rest; simpl; [done|].
  destruct (Nat.eqb (ticket x) id).
  - intros [= <- <-]. unfold count_submissions. simpl.
    destruct (is_submission x); simpl; lia.
  - destruct (take_pending id l) as [[q rest']|]; [|done].
    intros [= <- <-]. specialize (IH q rest' eq_refl).
    unfold count_submissions in *. simpl. destruct (is_submission x); simpl; lia.
Qed.

Lemma fetch_is_no_submission id f :
  is_submission (mkInFlight id (fetch_request env f) (fetch_settled gz f)) = false.
Proof. by destruct f. Qed.

Lemma fetch_settled_effect f r w :
  mounted (exec (fetch_settled gz f r) w) = mounted w /\
  pending (exec (fetch_settled gz f r) w) = pending w /\
  loading (ui (exec (fetch_settled gz f r) w)) = loading (ui w).
Proof.
  split; [|split].
  - by destruct (exec_tame env gz _ _ (fetch_settled_tame env gz f r) w) as [-> _].
  - destruct (exec_does_pending _ _ _ (fetch_settled_keeps_loading f r) w) as (extra & -> & He).
    destruct extra as [|e extra]; [by rewrite app_nil_r | by inversion He].
  - destruct (exec_does _ _ _ (fetch_settled_keeps_loading f r) w)
      as (updates & _ & Hu & -> & _).
    clear -Hu. revert Hu. generalize (ui w).
    induction updates as [|g gs IH]; intros st Hu; simpl; [done|].
    inversion Hu as [|? ? Hg Hgs]; subst. by rewrite IH, Hg.
Qed.

Lemma start_settled_effect r w :
  mounted (exec (startScrapingJob_settled env r) w) = mounted w /\
  ui (exec (startScrapingJob_settled env r) w) =
    (if mounted w then setLoading false (ui w) else ui w) /\
  pending (exec (startScrapingJob_settled env r) w) =
    pending w ++
    (if succeeded r
     then [mkInFlight (next_ticket w) (GET (API_BASE_URL env +:+ "/api/status"))
             fetchPipelineStatus_settled]
     else []).
Proof.
  destruct r as [data|message]; simpl.
  - unfold attempt, member. destruct (nullish data); simpl.
    + destruct (mounted w) eqn:E; simpl; rewrite ?E, app_nil_r; done.
    + unfold interpolate.
      destruct (truthy (lookup_prop data "success")); simpl;
        [destruct (no_primitive (lookup_prop data "job_id"))
        |destruct (no_primitive (lookup_prop data "message"))];
        simpl; destruct (mounted w) eqn:E; simpl; rewrite ?E, ?app_nil_r; done.
  - destruct (mounted w) eqn:E; simpl; rewrite ?E, app_nil_r; done.
Qed.

Ltac keep :=
  match goal with
  | Hle : (_ <= 1)%nat, Hload : _ -> _ = _ |- _ =>
      split; [exact Hle | intros Hm'; first [exact (Hload Hm') | apply Hload; congruence | congruence]]
  end.

Lemma handle_one_submission w i :
  world_ok w -> one_submission_at_a_time w -> one_submission_at_a_time (handle env w i).
Proof.
  unfold one_submission_at_a_time, submissions_in_flight. intros Hw [Hle Hload].
  destruct i; simpl.
  - (* Tick *)
    destruct Hw as [_ Hw]. destruct (mounted w) eqn:E.
    + destruct Hw as [_ (q & Ht & Hq)]. rewrite (tick_mounted env w q E Ht Hq).
      destruct (clock w + 1 =? 3000 * (q + 1))%N; simpl; rewrite ?E; [|keep].
      fold (count_submissions (pending w ++
              [mkInFlight (next_ticket w) (GET (API_BASE_URL env +:+ "/api/status"))
                 fetchPipelineStatus_settled])).
      rewrite count_submissions_app. unfold count_submissions at 2 4. simpl.
      rewrite !Nat.add_0_r. keep.
    + destruct Hw as [_ Ht]. unfold tick. simpl. rewrite Ht. simpl. keep.
  - (* Respond *)
    unfold respond.
    destruct (take_pending id (pending w)) as [[p rest]|] eqn:T; [|keep].
    pose proof (take_pending_count _ _ _ _ T) as Hcount.
    destruct (take_pending_spec _ _ _ _ T) as (_ & Hin & _).
    destruct Hw as [Hp _]. rewrite Forall_forall in Hp.
    destruct (Hp p ltac:(by apply list_elem_of_In)) as [k f | k body].
    + rewrite fetch_is_no_submission in Hcount. simpl resume.
      destruct (fetch_settled_effect f r (with_pending rest w)) as (-> & -> & ->).
      simpl. fold (count_submissions rest). rewrite Nat.add_0_r in Hcount.
      rewrite <- Hcount. keep.
    + simpl in Hcount. simpl resume.
      destruct (start_settled_effect r (with_pending rest w)) as (-> & -> & ->).
      simpl. fold (count_submissions (rest ++
               (if succeeded r
                then [mkInFlight (next_ticket w) (GET (API_BASE_URL env +:+ "/api/status"))
                        fetchPipelineStatus_settled]
                else []))).
      rewrite count_submissions_app.
      assert (count_submissions rest = 0)%nat as -> by lia.
      destruct (succeeded r), (mounted w); unfold count_submissions; simpl;
        (split; [lia | done]).
  - (* ClickStart *)
    destruct (mounted w) eqn:E; simpl; [|keep].
    destruct (start_clickable (ui w)) eqn:Hc; [|keep].
    assert (Hl : loading (ui w) = false).
    { unfold start_clickable, start_disabled, member in Hc.
      apply andb_prop in Hc as [_ Hc].
      destruct (nullish (pipelineStatus (ui w))); [done|].
      unfold js_or in Hc. by destruct (loading (ui w)). }
    specialize (Hload eq_refl). rewrite Hl in Hload.
    unfold startScrapingJob. destruct (truthy (selectedSpider (ui w))); simpl; rewrite ?E.
    + simpl. fold (count_submissions (pending w ++
               [mkInFlight (next_ticket w)
                  (POST (API_BASE_URL env +:+ "/api/start-scraping")
                     (start_body (selectedSpider (ui w)) (maxItems (ui w))))
                  (startScrapingJob_settled env)])).
      rewrite count_submissions_app, Hload. unfold count_submissions. simpl. auto.
    + fold (count_submissions (pending w)). rewrite Hl, Hload. auto.
  - (* ClickLoad *)
    destruct (mounted w) eqn:E; simpl; [|keep].
    destruct (load_target index (ui w)) as [spider|]; [|keep].
    simpl. rewrite E.
    fold (count_submissions (pending w ++
            [mkInFlight (next_ticket w)
               (GET (API_BASE_URL env +:+ "/api/scraping-results/" +:+ to_string spider))
               (fetchScrapingResults_settled (to_string spider))])).
    rewrite count_submissions_app. unfold count_submissions at 2 4. simpl.
    rewrite !Nat.add_0_r. keep.
  - destruct (mounted w) eqn:E; simpl; [|keep].
    destruct (String.eqb (activeTab (ui w)) "logs"); [|keep].
    simpl. rewrite E.
    fold (count_submissions (pending w ++
            [mkInFlight (next_ticket w) (GET (API_BASE_URL env +:+ "/api/logs?lines=100"))
               fetchLogs_settled])).
    rewrite count_submissions_app. unfold count_submissions at 2 4. simpl.
    rewrite !Nat.add_0_r. keep.
  - destruct (mounted w) eqn:E; simpl; [|keep].
    destruct (String.eqb (activeTab (ui w)) "taxonomy"); [|keep].
    simpl. rewrite E.
    fold (count_submissions (pending w ++
            [mkInFlight (next_ticket w) (GET (API_BASE_URL env +:+ "/api/missing-taxonomy"))
               fetchMissingTaxonomy_settled])).
    rewrite count_submissions_app. unfold count_submissions at 2 4. simpl.
    rewrite !Nat.add_0_r. keep.
  - destruct (mounted w) eqn:E; simpl; rewrite ?E; keep.
  - destruct (mounted w) eqn:E; simpl; [|keep].
    destruct (String.eqb (activeTab (ui w)) "scraping"); simpl; rewrite ?E; keep.
  - destruct (mounted w) eqn:E; simpl; [|keep].
    destruct (String.eqb (activeTab (ui w)) "scraping"); simpl; rewrite ?E; keep.
  - (* Unmount *)
    destruct (mounted w) eqn:E; [|keep].
    destruct Hw as [_ Hw]. rewrite E in Hw. destruct Hw as [Hc _].
    unfold unmount. rewrite Hc. simpl. split; [done | discriminate].
Qed.

Lemma step_one_submission w i :
  world_ok w -> one_submission_at_a_time w -> one_submission_at_a_time (step env gz w i).
Proof.
  intros Hw H1. pose proof (handle_one_submission w i Hw H1) as [Hle Hload].
  pose proof (handle_ok env gz w i Hw) as Hw'.
  destruct (settle_quiet env gz _ Hw') as (Hu & _ & Hp & _).
  unfold one_submission_at_a_time, submissions_in_flight, step in *. rewrite Hp, Hu.
  split; [exact Hle|]. rewrite settle_mounted. intros Hm. apply Hload.
  by apply andb_prop in Hm as [-> _].
Qed.

(** X19.  In every run of the page, at most one job submission is in flight;
    while the component is mounted the loading flag is set exactly when
    one is. *)
Theorem never_two_submissions_in_flight (inputs : list Input) :
  one_submission_at_a_time (run env gz (boot env gz) inputs).
Proof.
  assert (H : forall w, world_ok w -> one_submission_at_a_time w ->
                        one_submission_at_a_time (run env gz w inputs)).
  { induction inputs as [|i inputs IH]; intros w Hw H1; [done|].
    change (run env gz w (i :: inputs)) with (run env gz (step env gz w i) inputs).
    apply IH; [by apply step_ok | by apply step_one_submission]. }
  apply H; [apply boot_ok|]. unfold one_submission_at_a_time, submissions_in_flight, count_submissions. simpl. split; [lia | done].
Qed.

End Steps.

(** ** An unresponsive backend *)

Section Silence.
Variable env : option string.
Variable gz : JVal -> bool.

Lemma run_snoc w inputs i :
  run env gz w (inputs ++ [i]) = step env gz (run env gz w inputs) i.
Proof. unfold run. by rewrite fold_left_app. Qed.

Lemma repeat_snoc {A : Type} (x : A) (n : nat) : repeat x (S n) = repeat x n ++ [x].
Proof. induction n as [|n IH]; simpl in *; [done | by rewrite <- IH]. Qed.

(** A tick changes no state, so the first render is never redone. *)
Lemma tick_step w :
  world_ok env gz w -> mounted w = true -> ui w = initial_state ->
  step env gz w Tick = tick w /\ mounted (tick w) = true /\ ui (tick w) = initial_state.
Proof.
  intros [_ Hw] Hm Hui. rewrite Hm in Hw. destruct Hw as [_ (q & Ht & Hq)].
  assert (H : mounted (tick w) = true /\ ui (tick w) = initial_state).
  { rewrite (tick_mounted env w q Hm Ht Hq).
    by destruct (clock w + 1 =? 3000 * (q + 1))%N. }
  destruct H as [Hm' Hui']. split; [|done].
  unfold step, settle. simpl handle. by rewrite Hm', Hui'.
Qed.

Lemma quiet_ticks n :
  mounted (run env gz (boot env gz) (repeat Tick n)) = true /\
  ui (run env gz (boot env gz) (repeat Tick n)) = initial_state.
Proof.
  induction n as [|n [Hm Hui]]; [by simpl|].
  rewrite repeat_snoc, run_snoc.
  destruct (tick_step _ (run_ok env gz _ _ (boot_ok env gz)) Hm Hui) as (-> & ? & ?).
  done.
Qed.

Lemma requests_of_snoc (events : list (N * Event)) (ev : N * Event) :
  requests_of (events ++ [ev]) =
  requests_of events ++ match snd ev with Requested _ r => [r] | _ => [] end.
Proof. unfold requests_of. rewrite omap_app. simpl. by destruct (snd ev). Qed.

(** X20.  With a backend that never answers, the status is still requested
    every 3000 ms: after [n] ms the page has sent the three initial requests
    and [n / 3000] polls, and all of them are still in flight. *)
Theorem polls_pile_up_when_unanswered (n : nat) :
  let w := run env gz (boot env gz) (repeat Tick n) in
  let polls := N.to_nat (N.of_nat n / 3000) in
  clock w = N.of_nat n /\
  requests_of (trace w) =
    [GET (API_BASE_URL env +:+ "/api/spiders");
     GET (API_BASE_URL env +:+ "/api/status");
     GET (API_BASE_URL env +:+ "/api/test-services")] ++
    repeat (GET (API_BASE_URL env +:+ "/api/status")) polls /\
  length (pending w) = (3 + polls)%nat.
Proof.
  induction n as [|n (Hclock & Hsent & Hpending)]; [by simpl|].
  set (w := run env gz (boot env gz) (repeat Tick n)) in *.
  assert (Hw : world_ok env gz w) by apply run_ok, boot_ok.
  destruct (quiet_ticks n) as [Hm Hui]. fold w in Hm, Hui.
  destruct (tick_step w Hw Hm Hui) as (Hstep & _).
  destruct Hw as [_ Hw]. rewrite Hm in Hw. destruct Hw as [_ (q & Ht & Hq)].
  assert (Hdiv : (N.of_nat n / 3000 = q)%N).
  { symmetry. apply (N.div_unique _ 3000 q (clock w - 3000 * q)); lia. }
  rewrite Hdiv in *.
  cbv zeta. rewrite repeat_snoc, run_snoc. fold w.
  rewrite Hstep, (tick_mounted env w q Hm Ht Hq).
  destruct (clock w + 1 =? 3000 * (q + 1))%N eqn:E.
  - apply N.eqb_eq in E.
    assert (Hdiv' : (N.of_nat (S n) / 3000 = q + 1)%N).
    { symmetry. apply (N.div_unique _ 3000 (q + 1) 0); lia. }
    rewrite Hdiv'. simpl. rewrite requests_of_snoc, Hsent, length_app, Hpending. simpl.
    replace (N.to_nat (q + 1)) with (S (N.to_nat q)) by lia.
    split; [lia|]. split; [|lia].
    by rewrite repeat_snoc.
  - apply N.eqb_neq in E.
    assert (Hdiv' : (N.of_nat (S n) / 3000 = q)%N).
    { symmetry. apply (N.div_unique _ 3000 q (clock w + 1 - 3000 * q)); lia. }
    rewrite Hdiv'. simpl. split; [lia | done].
Qed.
End Silence.

(** ** Renders that throw *)

Section Crashes.
Variable env : option string.
Variable gz : JVal -> bool.


Lemma dead_ticks n : forall w,
  world_ok env gz w -> mounted w = false ->
  trace (run env gz w (repeat Tick n)) = trace w /\
  mounted (run env gz w (repeat Tick n)) = false.
Proof.
  induction n as [|n IH]; intros w Hw Hm; [done|].
  change (run env gz w (repeat Tick (S n)))
    with (run env gz (step env gz w Tick) (repeat Tick n)).
  assert (Hstep : trace (step env gz w Tick) = trace w /\ mounted (step env gz w Tick) = false).
  { destruct (step_quiet env gz w Tick Hw) as (_ & -> & _).
    rewrite (step_mounted env gz w Tick Hw), Hm. split; [|done].
    destruct Hw as [_ Hw]. rewrite Hm in Hw. destruct Hw as [_ Ht].
    simpl. unfold tick. simpl. by rewrite Ht. }
  destruct Hstep as [Ht Hm'].
  destruct (IH _ (step_ok env gz w Tick Hw) Hm') as [-> ->]. by rewrite Ht.
Qed.

(** X22.  When a status request resolves with [null], the header can no
    longer read [is_running]: the component is taken off the page with
    [null] as its last status, the polling interval is cleared, and however
    much time passes nothing more is sent. *)
Theorem null_status_takes_the_page_down
    (inputs : list Input) (id : nat) (rest : list InFlight) (n : nat) :
  let w := run env gz (boot env gz) inputs in
  mounted w = true ->
  take_pending id (pending w) =
    Some (mkInFlight id (GET (API_BASE_URL env +:+ "/api/status"))
            fetchPipelineStatus_settled, rest) ->
  let w' := step env gz w (Respond id (Resolved JNull)) in
  pipelineStatus (ui w') = JNull /\
  mounted w' = false /\
  timers w' = [] /\
  trace (run env gz w' (repeat Tick n)) = trace w.
Proof.
  intros w Hm Htake w'.
  assert (Hw : world_ok env gz w) by apply run_ok, boot_ok.
  assert (Hw' : world_ok env gz w') by apply step_ok, Hw.
  assert (Hh : handle env w (Respond id (Resolved JNull)) =
               with_state (setPipelineStatus JNull) (with_pending rest w)).
  { simpl. unfold respond. rewrite Htake. simpl. by rewrite Hm. }
  destruct (step_quiet env gz w (Respond id (Resolved JNull)) Hw) as (Hu & Ht & _).
  fold w' in Hu, Ht. rewrite Hh in Hu, Ht. simpl in Hu, Ht.
  assert (Hgone : mounted w' = false).
  { pose proof (step_mounted env gz w (Respond id (Resolved JNull)) Hw) as Hsm.
    fold w' in Hsm. rewrite Hsm, Hu. simpl. apply andb_false_r. }
  split; [by rewrite Hu|]. split; [exact Hgone|]. split.
  - destruct Hw' as [_ Hrest]. rewrite Hgone in Hrest. by destruct Hrest.
  - destruct (dead_ticks n w' Hw' Hgone) as [-> _]. exact Ht.
Qed.

End Crashes.

(** ** Instances *)

(** A service that loaded no category shows a bare 0. *)
Lemma service_card_count_line_witness :
  exists heading indicator error tags features,
    ServiceStatusCard "Taxonomy Service"
      (JObj (<["status" := JStr "success"]> (<["categories_count" := JNum 0]> ∅))) =
    inr (Elem "div"
           [("className", JStr "bg-white p-4 rounded-lg shadow-md border-l-4 border-blue-500")]
           [heading; indicator; error; Expr (JNum 0); tags; features]).
Proof.
  exact (service_card_count_line "Taxonomy Service"
           (JObj (<["status" := JStr "success"]> (<["categories_count" := JNum 0]> ∅))) 0
           eq_refl eq_refl).
Defined.


(** One missing category is listed in one row. *)
Lemma taxonomy_tab_lists_every_item_witness :
  exists rows,
    taxonomy_view (fun _ => false)
      (JArr [JObj (<["type" := JStr "category"]> (<["name" := JStr "Video"]> ∅))]) =
      inr (Elem "div" [("className", JStr "max-h-64 overflow-y-auto")] rows) /\
    length rows = 1%nat.
Proof.
  apply (taxonomy_tab_lists_every_item (fun _ => false)
           [JObj (<["type" := JStr "category"]> (<["name" := JStr "Video"]> ∅))]).
  repeat constructor.
Defined.


(** Two spiders arrive: the first is selected. *)
Lemma spiders_response_selects_first_witness :
  let w' := exec (fetchSpiders_settled (fun _ => false)
                    (Resolved (JObj (<["spiders" := JArr [JStr "futuretools"; JStr "toolify"]]> ∅))))
              blank in
  spiders (ui w') = JArr [JStr "futuretools"; JStr "toolify"] /\
  selectedSpider (ui w') = JStr "futuretools" /\
  spider_options (spiders (ui w')) =
    inr [spider_option (JStr "futuretools"); spider_option (JStr "toolify")] /\
  trace w' = [].
Proof.
  exact (spiders_response_selects_first (fun _ => false)
           (JObj (<["spiders" := JArr [JStr "futuretools"; JStr "toolify"]]> ∅))
           [JStr "futuretools"; JStr "toolify"] blank eq_refl eq_refl eq_refl).
Defined.


(** Results loaded twice for one spider. *)
Lemma results_last_response_wins_witness :
  let w1 := exec (fetchScrapingResults_settled "toolify" (Resolved (JNum 1))) blank in
  let w2 := exec (fetchScrapingResults_settled "toolify" (Resolved (JNum 2))) w1 in
  scrapingResults (ui w1) !! "toolify" = Some (JNum 1) /\
  scrapingResults (ui w2) !! "toolify" = Some (JNum 2) /\
  ui w2 = ui (exec (fetchScrapingResults_settled "toolify" (Resolved (JNum 2))) blank).
Proof.
  exact (results_last_response_wins "toolify" (JNum 1) (JNum 2) blank eq_refl).
Defined.

(** Results for two spiders, in either order. *)
Lemma results_of_different_spiders_commute_witness :
  let w12 := exec (fetchScrapingResults_settled "toolify" (Resolved (JNum 2)))
               (exec (fetchScrapingResults_settled "futuretools" (Resolved (JNum 1))) blank) in
  let w21 := exec (fetchScrapingResults_settled "futuretools" (Resolved (JNum 1)))
               (exec (fetchScrapingResults_settled "toolify" (Resolved (JNum 2))) blank) in
  (forall key : string,
     scrapingResults (ui w12) !! key = scrapingResults (ui w21) !! key) /\
  setScrapingResults (fun _ => ∅) (ui w12) = setScrapingResults (fun _ => ∅) (ui w21).
Proof.
  assert (Hne : "futuretools" <> "toolify") by discriminate.
  exact (results_of_different_spiders_commute "futuretools" "toolify"
           (Resolved (JNum 1)) (Resolved (JNum 2)) blank Hne).
Defined.

(** A network failure of the submission. *)
Lemma submission_always_ends_witness :
  let w' := exec (startScrapingJob_settled None (Rejected "Network Error"))
              (with_state (setLoading true) blank) in
  ui w' = setLoading false (ui (with_state (setLoading true) blank)) /\
  exists msg, trace w' = [(0%N, Alerted msg)].
Proof.
  exact (submission_always_ends None (Rejected "Network Error")
           (with_state (setLoading true) blank) eq_refl).
Defined.

(** The max-items field was cleared before the click. *)
Lemma submission_sends_what_was_typed_witness :
  let w := with_state (setActiveTab "scraping") blank in
  let w' := run None (fun _ => false) w
              [ChangeSpider "toolify"; ChangeMaxItems None; ClickStart] in
  pending w' =
    [mkInFlight 0
       (POST "http://localhost:8001/api/start-scraping" (start_body (JStr "toolify") JNaN))
       (startScrapingJob_settled None)] /\
  loading (ui w') = true.
Proof.
  assert (Hname : "toolify" <> "") by discriminate.
  exact (submission_sends_what_was_typed None (fun _ => false) "toolify" None
           (with_state (setActiveTab "scraping") blank) eq_refl eq_refl eq_refl Hname).
Defined.

(** A snapshot with a job running: badge, notice and disabled button. *)
Lemma running_views_agree_witness :
  let st := setPipelineStatus snapshot_running initial_state in
  start_disabled st = inr (JBool true) /\
  (truthy (JBool true) = true <->
   running_notice (pipelineStatus st) = inr (notice_box (JStr "futuretools"))) /\
  (truthy (JBool true) = true <-> running_indicator (pipelineStatus st) = inr running_badge) /\
  (truthy (JBool true) = true <-> start_clickable (setActiveTab "scraping" st) = false).
Proof.
  exact (running_views_agree (setPipelineStatus snapshot_running initial_state)
           eq_refl eq_refl).
Defined.

(** The first status request is answered with [null]; four seconds later
    nothing more has been sent. *)
Lemma null_status_takes_the_page_down_witness :
  let w := run None (fun _ => false) (boot None (fun _ => false)) [Tick; Tick] in
  let w' := step None (fun _ => false) w (Respond 1 (Resolved JNull)) in
  pipelineStatus (ui w') = JNull /\
  mounted w' = false /\
  timers w' = [] /\
  trace (run None (fun _ => false) w' (repeat Tick 4000)) = trace w.
Proof.
  exact (null_status_takes_the_page_down None (fun _ => false) [Tick; Tick] 1
           [mkInFlight 0 (GET "http://localhost:8001/api/spiders")
              (fetchSpiders_settled (fun _ => false));
            mkInFlight 2 (GET "http://localhost:8001/api/test-services")
              fetchServiceStatus_settled]
           4000 eq_refl eq_refl).
Defined.

(** After a click on "Logs", the logs button is the highlighted one. *)
Lemma exactly_one_tab_is_highlighted_witness :
  let st := ui (run None (fun _ => false) (boot None (fun _ => false)) [ClickTab "logs"; Tick]) in
  exists before after,
    tabs = before ++ activeTab st :: after /\
    nav st = map (tab_button false) before ++ tab_button true (activeTab st) ::
             map (tab_button false) after.
Proof.
  assert (Hpage : Forall from_the_page [ClickTab "logs"; Tick]).
  { constructor; [simpl; tauto |]. constructor; [exact I | constructor]. }
  exact (exactly_one_tab_is_highlighted None (fun _ => false) [ClickTab "logs"; Tick] Hpage).
Defined.
